(** * arknights_mower/utils/solver.py : BaseSolver

    A shallow embedding of the solver base class: the retry loop of
    [run], the geometry resolver [get_pos], the gesture builders and the
    scene navigation procedures [login], [get_navigation] and
    [back_to_index].

    Conventions of the embedding.
    - Python numbers are exact rationals ([Q]); an [int] is a rational with
      denominator one.  [int(x)] truncates toward zero, [//] takes the floor.
      Binary64 rounding is not modelled.  On integer coordinates that
      binary64 holds exactly, [get_pos] agrees with the interpreter at
      the weights 0.5, 0 and 1, where every product and sum is exact, and
      on the paths without arithmetic.  At other weights the interpreter
      rounds each operation and can land one pixel away from the exact
      value (6, not 7, for x from 6 to 26 at the weight 0.05): the
      properties below are stated at the exact weights only.
    - A [tp.Location] is an untyped Python value ([pyval]): the source
      tells the three shapes apart by [len], and so does the model.
    - The device, the recognizer, the detector, [time.sleep], [input] and
      the task's [transition] are collaborators whose code is elsewhere;
      they are fields of [Collaborators], state transformers on an abstract
      world [W] that may raise.
    - A solver state pairs the world with the [trace] of calls the solver
      placed on the device, the clock, the recognizer refresh, the logger
      and the task body, oldest first.
    - Loops that the source does not bound take a [fuel]; [None] means the
      fuel ran out, never a result. *)

From Stdlib Require Import ZArith QArith Qround Qabs List String Ascii Bool Lia
  Permutation.
Import ListNotations.
Open Scope string_scope.
Open Scope Z_scope.
Set Warnings "-register-all".

(** ** Exceptions and outcomes *)

Inductive exn : Type :=
| RecognizeError (msg : string)
| StrategyError
| TypeError
| IndexError
| ValueError
| OtherError (name : string).

Inductive outcome (A : Type) : Type :=
| Ok (a : A)
| Raise (e : exn).
Arguments Ok {A} a.
Arguments Raise {A} e.

Definition obind {A B : Type} (o : outcome A) (k : A -> outcome B) : outcome B :=
  match o with
  | Ok a => k a
  | Raise e => Raise e
  end.

Declare Scope outcome_scope.
Delimit Scope outcome_scope with outcome.
Notation "x <~ o ;; k" := (obind o (fun x => k))
  (at level 61, o at next level, right associativity) : outcome_scope.

(** ** Python values used as locations *)

Inductive pyval : Type :=
| PyNone
| PyNum (q : Q)
| PyTuple (items : list pyval).

(** [tp.Coordinate], [tp.Scope] and [tp.Rectangle] as the recognizer builds them. *)
Definition Coordinate (x y : Q) : pyval := PyTuple [PyNum x; PyNum y].
Definition Scope (x0 y0 x1 y1 : Q) : pyval :=
  PyTuple [Coordinate x0 y0; Coordinate x1 y1].

(** [int(x)] on a number: truncation toward zero. *)
Definition Qtruncate (q : Q) : Z := Z.quot (Qnum q) (Zpos (Qden q)).

(** [len(v)] *)
Definition py_len (v : pyval) : outcome Z :=
  match v with
  | PyTuple items => Ok (Z.of_nat (List.length items))
  | _ => Raise TypeError
  end.

(** [v[i]] *)
Definition py_getitem (v : pyval) (i : nat) : outcome pyval :=
  match v with
  | PyTuple items =>
      match nth_error items i with
      | Some x => Ok x
      | None => Raise IndexError
      end
  | _ => Raise TypeError
  end.

(** A value used as an operand of [*], [+] or [//] with a float. *)
Definition py_num (v : pyval) : outcome Q :=
  match v with
  | PyNum q => Ok q
  | _ => Raise TypeError
  end.

(** [int(v)] *)
Definition py_int (v : pyval) : outcome Z :=
  match v with
  | PyNum q => Ok (Qtruncate q)
  | _ => Raise TypeError
  end.

(** [isinstance(v, (list, tuple))] *)
Definition is_list_or_tuple (v : pyval) : bool :=
  match v with
  | PyTuple _ => true
  | _ => false
  end.

(** [x, y = v] *)
Definition py_unpack2 (v : pyval) : outcome (pyval * pyval) :=
  match v with
  | PyTuple [x; y] => Ok (x, y)
  | PyTuple _ => Raise ValueError
  | _ => Raise TypeError
  end.

(** [v[i][j]] as a number *)
Definition py_coord (v : pyval) (i j : nat) : outcome Q :=
  (row <~ py_getitem v i ;;
   c <~ py_getitem row j ;;
   py_num c)%outcome.

(** ** BaseSolver.get_pos *)

Definition get_pos (poly : pyval) (x_rate y_rate : Q) : outcome (Z * Z) :=
  match poly with
  | PyNone => Raise (RecognizeError "poly is empty")
  | _ =>
    (n <~ py_len poly ;;
     xy <~ (if n =? 4 then
              (* tp.Rectangle *)
              a0 <~ py_coord poly 0 0 ;; a1 <~ py_coord poly 1 0 ;;
              a2 <~ py_coord poly 2 0 ;; a3 <~ py_coord poly 3 0 ;;
              b0 <~ py_coord poly 0 1 ;; b3 <~ py_coord poly 3 1 ;;
              b1 <~ py_coord poly 1 1 ;; b2 <~ py_coord poly 2 1 ;;
              Ok (PyNum ((a0 * (1 - x_rate) + a1 * (1 - x_rate) +
                          a2 * x_rate + a3 * x_rate) / 2)%Q,
                  PyNum ((b0 * (1 - y_rate) + b3 * (1 - y_rate) +
                          b1 * y_rate + b2 * y_rate) / 2)%Q)
            else
              p0 <~ (if n =? 2 then py_getitem poly 0 else Ok PyNone) ;;
              if (n =? 2) && is_list_or_tuple p0 then
                (* tp.Scope *)
                a0 <~ py_coord poly 0 0 ;; a1 <~ py_coord poly 1 0 ;;
                b0 <~ py_coord poly 0 1 ;; b1 <~ py_coord poly 1 1 ;;
                Ok (PyNum (a0 * (1 - x_rate) + a1 * x_rate)%Q,
                    PyNum (b0 * (1 - y_rate) + b1 * y_rate)%Q)
              else
                (* tp.Coordinate *)
                py_unpack2 poly) ;;
     x <~ py_int (fst xy) ;;
     y <~ py_int (snd xy) ;;
     Ok (x, y))%outcome
  end.


(** ** The world outside the solver *)

Inductive KeyCode : Type := KEYCODE_BACK.

Inductive level : Type := DEBUG | INFO | WARNING | ERROR.

(** One entry per call the solver places on a collaborator that acts on
    the device, lets time pass, refreshes the screenshot, writes to the
    log or runs the task body.  Queries of the recognizer are not traced. *)
Inductive event : Type :=
| EvTransition
| EvLog (lvl : level)
| EvTimeSleep (interval : Q)
| EvRecogUpdate (rebuild : bool)
| EvTap (pos : Z * Z)
| EvSendText (text : string)
| EvSwipe (points : list (Z * Z)) (duration : Z)
| EvSmoothSwipe (points : list (Z * Z)) (display_frames : pyval)
                (duration : list Z) (up_wait : Z)
| EvKeyevent (code : KeyCode).

(** [config.MAX_RETRYTIME] *)
Class Config : Type := { MAX_RETRYTIME : Z }.

(** The members of [recognize.Scene] the solver compares against. *)
Class SceneTable : Type := {
  INDEX : Z;
  NAVIGATION_BAR : Z;
  ANNOUNCEMENT : Z;
  MATERIEL : Z;
  CONFIRM : Z;
  LOADING : Z;
  SKIP : Z;
  OPERATOR_ONGOING : Z;
  OPERATOR_FINISH : Z;
  OPERATOR_ELIMINATE_FINISH : Z;
  DOUBLE_CONFIRM : Z;
  MAIL : Z;
  LOGIN_START : Z;
  LOGIN_QUICKLY : Z;
  LOGIN_MAIN : Z;
  LOGIN_INPUT : Z;
  LOGIN_ANNOUNCE : Z;
  LOGIN_LOADING : Z
}.

(** The device, the recognizer, the detector module, the clock, standard
    input and the abstract method [transition]. *)
Class Collaborators (W : Type) : Type := {
  device_tap : Z * Z -> W -> outcome unit * W;
  device_send_text : string -> W -> outcome unit * W;
  device_swipe : list (Z * Z) -> Z -> W -> outcome unit * W;
  device_smooth_swipe :
    list (Z * Z) -> pyval -> list Z -> Z -> W -> outcome unit * W;
  device_display_frames : W -> outcome pyval * W;
  device_send_keyevent : KeyCode -> W -> outcome unit * W;
  recog_update : bool -> W -> outcome unit * W;
  recog_find :
    string -> bool -> pyval -> option Z -> bool -> W -> outcome pyval * W;
  recog_nav_button : W -> outcome pyval * W;
  recog_get_scene : W -> outcome Z * W;
  recog_w : W -> Z;
  recog_h : W -> Z;
  detector_confirm : W -> outcome pyval * W;
  detector_announcement_close : W -> outcome pyval * W;
  time_passes : Q -> W -> W;
  stdin_input : string -> W -> outcome string * W;
  transition : W -> outcome bool * W
}.

Record State (W : Type) : Type := mkState {
  world : W;
  trace : list event
}.
Arguments mkState {W} world trace.
Arguments world {W} s.
Arguments trace {W} s.

(** ** The solver monad: state, exceptions, fuel *)

Definition SolverM (W A : Type) : Type :=
  State W -> option (outcome A * State W).

Definition ret {W A : Type} (a : A) : SolverM W A := fun s => Some (Ok a, s).

Definition raise {W A : Type} (e : exn) : SolverM W A := fun s => Some (Raise e, s).

Definition out_of_fuel {W A : Type} : SolverM W A := fun _ => None.

Definition bind {W A B : Type} (m : SolverM W A) (k : A -> SolverM W B) : SolverM W B :=
  fun s =>
    match m s with
    | Some (Ok a, s') => k a s'
    | Some (Raise e, s') => Some (Raise e, s')
    | None => None
    end.

Declare Scope solver_scope.
Delimit Scope solver_scope with solver.
Notation "x <- m ;; k" := (bind m (fun x => k))
  (at level 61, m at next level, right associativity) : solver_scope.
Notation "m ;; k" := (bind m (fun _ => k))
  (at level 61, right associativity) : solver_scope.
Open Scope solver_scope.

(** A pure computation that may raise. *)
Definition eval {W A : Type} (o : outcome A) : SolverM W A := fun s => Some (o, s).

(** The body of a [try]: the exception, if any, is handed to the caller. *)
Definition try_ {W A : Type} (m : SolverM W A) : SolverM W (outcome A) :=
  fun s =>
    match m s with
    | Some (r, s') => Some (Ok r, s')
    | None => None
    end.

Definition emit {W : Type} (e : event) : SolverM W unit :=
  fun s => Some (Ok tt, mkState (world s) (trace s ++ [e])).

(** A query of a collaborator. *)
Definition ask {W A : Type} (f : W -> outcome A * W) : SolverM W A :=
  fun s => let (r, w') := f (world s) in Some (r, mkState w' (trace s)).

(** A traced call of a collaborator. *)
Definition call {W A : Type} (e : event) (f : W -> outcome A * W) : SolverM W A :=
  emit e ;; ask f.

Definition gets {W A : Type} (f : W -> A) : SolverM W A :=
  fun s => Some (Ok (f (world s)), s).

Definition Qlt_bool (x y : Q) : bool := negb (Qle_bool y x).

(** [str.strip()] on ASCII text. *)
Definition is_space (c : ascii) : bool :=
  let n := nat_of_ascii c in
  ((9 <=? n) && (n <=? 13) || (28 <=? n) && (n <=? 32))%nat.

Fixpoint lstrip (s : string) : string :=
  match s with
  | String c s' => if is_space c then lstrip s' else s
  | EmptyString => EmptyString
  end.

Fixpoint string_rev (s acc : string) : string :=
  match s with
  | String c s' => string_rev s' (String c acc)
  | EmptyString => acc
  end.

Definition strip (s : string) : string :=
  string_rev (lstrip (string_rev (lstrip s) EmptyString)) EmptyString.

(** ** BaseSolver *)

(** How the loop of [run] was left, with the value [retry_times] had then:
    by [break], by the [return] of the [StrategyError] handler, or because
    the loop condition failed. *)
Inductive run_exit : Type :=
| Completed (retry_times : Z)
| Aborted (retry_times : Z)
| Exhausted (retry_times : Z).

Section BaseSolver.

Context {W : Type} {cfg : Config} {scenes : SceneTable} {ext : Collaborators W}.

Local Abbreviation M := (SolverM W).

(** [time.sleep(interval)] *)
Definition time_sleep (interval : Q) : M unit :=
  if Qlt_bool interval 0 then raise ValueError
  else fun s =>
    Some (Ok tt, mkState (time_passes interval (world s))
                         (trace s ++ [EvTimeSleep interval])).

Definition sleep (interval : Q) (rebuild : bool) : M unit :=
  time_sleep interval ;;
  call (EvRecogUpdate rebuild) (recog_update rebuild).

(** The loop of [run], entered with [retry_times]. *)
Fixpoint run_loop (fuel : nat) (retry_times : Z) : M run_exit :=
  if retry_times >? 0 then
    match fuel with
    | O => out_of_fuel
    | S fuel' =>
        r <- try_ (call EvTransition transition) ;;
        match r with
        | Ok true => ret (Completed retry_times)
        | Ok false => run_loop fuel' MAX_RETRYTIME
        | Raise (RecognizeError _) =>
            emit (EvLog WARNING) ;;
            sleep 3 true ;;
            run_loop fuel' (retry_times - 1)
        | Raise StrategyError =>
            emit (EvLog ERROR) ;;
            emit (EvLog DEBUG) ;;
            ret (Aborted retry_times)
        | Raise e => raise e
        end
    end
  else ret (Exhausted retry_times).

Definition run (fuel : nat) : M unit :=
  run_loop fuel MAX_RETRYTIME ;; ret tt.

Definition input (referent : string) (input_area : pyval) : M unit :=
  emit (EvLog DEBUG) ;;
  pos <- eval (get_pos input_area (1#2) (1#2)) ;;
  call (EvTap pos) (device_tap pos) ;;
  text <- ask (stdin_input referent) ;;
  call (EvSendText (strip text)) (device_send_text (strip text)) ;;
  call (EvTap (0, 0)) (device_tap (0, 0)).

Definition find (res : string) (draw : bool) (scope : pyval)
    (thres : option Z) (judge : bool) : M pyval :=
  ask (recog_find res draw scope thres judge).

Definition tap (poly : pyval) (x_rate y_rate interval : Q) (rebuild : bool)
    : M unit :=
  pos <- eval (get_pos poly x_rate y_rate) ;;
  call (EvTap pos) (device_tap pos) ;;
  if Qlt_bool 0 interval then sleep interval rebuild else ret tt.

Definition tap_element (element_name : string) (x_rate y_rate interval : Q)
    (rebuild draw : bool) (scope : pyval) (judge detected : bool) : M bool :=
  element <- (if String.eqb element_name "nav_button"
              then ask recog_nav_button
              else find element_name draw scope None judge) ;;
  match detected, element with
  | true, PyNone => ret false
  | _, _ => tap element x_rate y_rate interval rebuild ;; ret true
  end.

Definition swipe (start movement : Z * Z) (duration : Z) (interval : Q)
    (rebuild : bool) : M unit :=
  let end_ := (fst start + fst movement, snd start + snd movement) in
  call (EvSwipe [start; end_] duration) (device_swipe [start; end_] duration) ;;
  if Qlt_bool 0 interval then sleep interval rebuild else ret tt.

Definition swipe_seq (points : list (Z * Z)) (duration : Z) (interval : Q)
    (rebuild : bool) : M unit :=
  call (EvSwipe points duration) (device_swipe points duration) ;;
  if Qlt_bool 0 interval then sleep interval rebuild else ret tt.

(** The waypoints [swipe_move] appends after [last]. *)
Fixpoint moves_from (last : Z * Z) (movements : list (Z * Z)) : list (Z * Z) :=
  match movements with
  | [] => []
  | move :: rest =>
      let p := (fst last + fst move, snd last + snd move) in
      p :: moves_from p rest
  end.

Definition swipe_move (start : Z * Z) (movements : list (Z * Z))
    (duration : Z) (interval : Q) (rebuild : bool) : M unit :=
  let points := start :: moves_from start movements in
  call (EvSwipe points duration) (device_swipe points duration) ;;
  if Qlt_bool 0 interval then sleep interval rebuild else ret tt.

(** The waypoints and the distance [swipe_noinertia] computes. *)
Definition noinertia_path (start movement : Z * Z) : list (Z * Z) * Z :=
  if fst movement =? 0 then
    ([start;
      (fst start + 100, snd start);
      (fst start + 100, snd start + snd movement);
      (fst start, snd start + snd movement)],
     Z.abs (snd movement))
  else
    ([start;
      (fst start, snd start + 100);
      (fst start + fst movement, snd start + 100);
      (fst start + fst movement, snd start)],
     Z.abs (fst movement)).

Definition swipe_noinertia (start movement : Z * Z) (duration : Z)
    (interval : Q) (rebuild : bool) : M unit :=
  let (points, dis) := noinertia_path start movement in
  frames <- ask device_display_frames ;;
  let durations := [200; dis * duration / 100; 200] in
  call (EvSmoothSwipe points frames durations 500)
       (device_smooth_swipe points frames durations 500) ;;
  if Qlt_bool 0 interval then sleep interval rebuild else ret tt.

Definition back (interval : Q) (rebuild : bool) : M unit :=
  call (EvKeyevent KEYCODE_BACK) (device_send_keyevent KEYCODE_BACK) ;;
  sleep interval rebuild.

Definition scene : M Z := ask recog_get_scene.

Definition is_login : M bool :=
  a <- scene ;;
  if a / 100 =? 1 then ret false else
  b <- scene ;;
  if b / 100 =? 99 then ret false else
  c <- scene ;;
  ret (negb (c =? -1)).

(** One pass of the [try] block of [login]. *)
Definition login_step : M unit :=
  s1 <- scene ;;
  if s1 =? LOGIN_START then
    w <- gets recog_w ;;
    h <- gets recog_h ;;
    tap (Coordinate (inject_Z (w / 2)) (inject_Z (h - 10))) 3 (1#2) 1 true
  else
  s2 <- scene ;;
  if s2 =? LOGIN_QUICKLY then
    tap_element "login_awake" (1#2) (1#2) 1 true false PyNone true false ;;
    ret tt
  else
  s3 <- scene ;;
  if s3 =? LOGIN_MAIN then
    tap_element "login_account" (1#2) (1#2) 1 true false PyNone true false ;;
    ret tt
  else
  s4 <- scene ;;
  if s4 =? LOGIN_INPUT then
    input_area <- find "login_username" false PyNone None true ;;
    match input_area with
    | PyNone => ret tt
    | _ => input "Enter username: " input_area
    end ;;
    input_area <- find "login_password" false PyNone None true ;;
    match input_area with
    | PyNone => ret tt
    | _ => input "Enter password: " input_area
    end ;;
    tap_element "login_button" (1#2) (1#2) 1 true false PyNone true false ;;
    ret tt
  else
  s5 <- scene ;;
  if s5 =? LOGIN_ANNOUNCE then
    tap_element "login_iknow" (1#2) (1#2) 1 true false PyNone true false ;;
    ret tt
  else
  s6 <- scene ;;
  if s6 =? LOGIN_LOADING then sleep 3 true else
  s7 <- scene ;;
  if s7 =? LOADING then sleep 3 true else
  s8 <- scene ;;
  if s8 =? CONFIRM then
    el <- ask detector_confirm ;;
    tap el (1#2) (1#2) 1 true
  else
    raise (RecognizeError "Unanticipated scene: login").

(** The loop of [login]; the result is [retry_times] at its exit. *)
Fixpoint login_loop (fuel : nat) (retry_times : Z) : M Z :=
  go <- (if retry_times =? 0 then ret false
         else logged <- is_login ;; ret (negb logged)) ;;
  if go then
    match fuel with
    | O => out_of_fuel
    | S fuel' =>
        r <- try_ login_step ;;
        match r with
        | Ok _ => login_loop fuel' MAX_RETRYTIME
        | Raise (RecognizeError _) =>
            emit (EvLog WARNING) ;;
            sleep 3 true ;;
            login_loop fuel' (retry_times - 1)
        | Raise e => raise e
        end
    end
  else ret retry_times.

Definition login (fuel : nat) : M unit :=
  login_loop fuel MAX_RETRYTIME ;;
  logged <- is_login ;;
  if logged then ret tt else raise StrategyError.

(** The loop of [get_navigation].  [Some true] and [Some false] are the
    two [return] statements; [None] is the value of a call that falls off
    the end of the function. *)
Fixpoint get_navigation_loop (fuel : nat) (retry_times : Z) : M (option bool) :=
  if retry_times =? 0 then ret None
  else
    match fuel with
    | O => out_of_fuel
    | S fuel' =>
        sc <- scene ;;
        if sc =? NAVIGATION_BAR then ret (Some true)
        else
          tapped <- tap_element "nav_button" (1#2) (1#2) 1 true
                                false PyNone true true ;;
          if tapped then get_navigation_loop fuel' (retry_times - 1)
          else ret (Some false)
    end.

Definition get_navigation (fuel : nat) : M (option bool) :=
  get_navigation_loop fuel MAX_RETRYTIME.

(** Truth value of what [get_navigation] returns. *)
Definition truthy (v : option bool) : bool :=
  match v with
  | Some b => b
  | None => false
  end.

(** [(mail[0][1] + mail[1][1]) // 2] *)
Definition mail_mid_y (mail : pyval) : outcome Z :=
  (a <~ py_coord mail 0 1 ;;
   b <~ py_coord mail 1 1 ;;
   Ok (Qfloor ((a + b) / 2)))%outcome.

(** One pass of the [try] block of [back_to_index]. *)
Definition back_to_index_step (fuel : nat) : M unit :=
  nav <- get_navigation fuel ;;
  if truthy nav then
    tap_element "nav_index" (1#2) (1#2) 1 true false PyNone true false ;;
    ret tt
  else
  s1 <- scene ;;
  if s1 =? ANNOUNCEMENT then
    el <- ask detector_announcement_close ;;
    tap el (1#2) (1#2) 1 true
  else
  s2 <- scene ;;
  if s2 =? MATERIEL then
    tap_element "materiel_ico" (1#2) (1#2) 1 true false PyNone true false ;;
    ret tt
  else
  s3 <- scene ;;
  if s3 / 100 =? 1 then login fuel else
  s4 <- scene ;;
  if s4 =? CONFIRM then
    el <- ask detector_confirm ;;
    tap el (1#2) (1#2) 1 true
  else
  s5 <- scene ;;
  if s5 =? LOADING then sleep 3 true else
  s6 <- scene ;;
  if s6 =? SKIP then
    tap_element "skip" (1#2) (1#2) 1 true false PyNone true false ;;
    ret tt
  else
  s7 <- scene ;;
  if s7 =? OPERATOR_ONGOING then sleep 10 true else
  s8 <- scene ;;
  if s8 =? OPERATOR_FINISH then
    w <- gets recog_w ;;
    tap (Coordinate (inject_Z (w / 2)) 10) (1#2) (1#2) 1 true
  else
  s9 <- scene ;;
  if s9 =? OPERATOR_ELIMINATE_FINISH then
    w <- gets recog_w ;;
    tap (Coordinate (inject_Z (w / 2)) 10) (1#2) (1#2) 1 true
  else
  s10 <- scene ;;
  if s10 =? DOUBLE_CONFIRM then
    tap_element "double_confirm" (8#10) (1#2) 1 true false PyNone true false ;;
    ret tt
  else
  s11 <- scene ;;
  if s11 =? MAIL then
    mail <- find "mail" false PyNone None true ;;
    mid_y <- eval (mail_mid_y mail) ;;
    tap (Coordinate (inject_Z mid_y) (inject_Z mid_y)) (1#2) (1#2) 1 true
  else
    raise (RecognizeError "Unanticipated scene: back_to_index").

(** The loop of [back_to_index]; the result is [retry_times] at its exit. *)
Fixpoint back_to_index_loop (fuel : nat) (retry_times : Z) : M Z :=
  go <- (if retry_times =? 0 then ret false
         else sc <- scene ;; ret (negb (sc =? INDEX))) ;;
  if go then
    match fuel with
    | O => out_of_fuel
    | S fuel' =>
        r <- try_ (back_to_index_step fuel') ;;
        match r with
        | Ok _ => back_to_index_loop fuel' MAX_RETRYTIME
        | Raise (RecognizeError _) =>
            emit (EvLog WARNING) ;;
            sleep 3 true ;;
            back_to_index_loop fuel' (retry_times - 1)
        | Raise e => raise e
        end
    end
  else ret retry_times.

Definition back_to_index (fuel : nat) : M unit :=
  emit (EvLog INFO) ;;
  back_to_index_loop fuel MAX_RETRYTIME ;;
  sc <- scene ;;
  if sc =? INDEX then ret tt else raise StrategyError.

End BaseSolver.

(** ** Vocabulary of the properties *)

Definition is_transition (e : event) : bool :=
  match e with EvTransition => true | _ => false end.

Definition is_tap (e : event) : bool :=
  match e with EvTap _ => true | _ => false end.

(** Calls that reach the device. *)
Definition is_device_action (e : event) : bool :=
  match e with
  | EvTap _ | EvSendText _ | EvSwipe _ _ | EvSmoothSwipe _ _ _ _
  | EvKeyevent _ => true
  | _ => false
  end.

Definition count (p : event -> bool) (t : list event) : nat :=
  List.length (filter p t).

(** What one failed attempt of [run] leaves in the trace. *)
Definition retry_events : list event :=
  [EvTransition; EvLog WARNING; EvTimeSleep 3; EvRecogUpdate true].

Fixpoint repeat_events (n : nat) (es : list event) : list event :=
  match n with
  | O => []
  | S n' => es ++ repeat_events n' es
  end.



Section Behaviours.

Context {W : Type} {cfg : Config} {scenes : SceneTable} {ext : Collaborators W}.

(** Every call of the task body raises [RecognizeError]. *)
Definition always_unrecognized : Prop :=
  forall w, exists msg w', transition w = (Raise (RecognizeError msg), w').

(** The screenshot refresh of [sleep] does not raise. *)
Definition refresh_succeeds : Prop :=
  forall rebuild w, exists w', recog_update rebuild w = (Ok tt, w').

Definition taps_succeed : Prop :=
  forall pos w, exists w', device_tap pos w = (Ok tt, w').

(** From world [w] the body raises [RecognizeError] on its first [n] calls,
    each followed by the pause of the handler, and then returns [True],
    leaving the world [w_end]. *)
Fixpoint fails_then_completes (n : nat) (w w_end : W) : Prop :=
  match n with
  | O => transition w = (Ok true, w_end)
  | S n' =>
      exists msg w1 w2,
        transition w = (Raise (RecognizeError msg), w1) /\
        recog_update true (time_passes 3 w1) = (Ok tt, w2) /\
        fails_then_completes n' w2 w_end
  end.

(** The recognizer never reports the navigation bar. *)
Definition navigation_bar_never_seen : Prop :=
  forall w, exists sc w',
    recog_get_scene w = (Ok sc, w') /\ sc <> NAVIGATION_BAR.

(** The recognizer always finds the navigation toggle, at a location
    [get_pos] resolves. *)
Definition nav_button_always_found : Prop :=
  forall w, exists el pos w',
    recog_nav_button w = (Ok el, w') /\ get_pos el (1#2) (1#2) = Ok pos.

(** The scene code of the mail overlay selects the mail branch of
    [back_to_index]: it is none of the codes tested before it. *)
Definition mail_is_distinct : bool :=
  negb (MAIL =? NAVIGATION_BAR) && negb (MAIL =? ANNOUNCEMENT) &&
  negb (MAIL =? MATERIEL) && negb (MAIL / 100 =? 1) &&
  negb (MAIL =? CONFIRM) && negb (MAIL =? LOADING) && negb (MAIL =? SKIP) &&
  negb (MAIL =? OPERATOR_ONGOING) && negb (MAIL =? OPERATOR_FINISH) &&
  negb (MAIL =? OPERATOR_ELIMINATE_FINISH) && negb (MAIL =? DOUBLE_CONFIRM).

End Behaviours.

(** ** Scripted worlds for the examples *)

Module Example.

(** A scene table with the login family in the band 100..199. *)
Definition scene_table : SceneTable := {|
  INDEX := 1;
  NAVIGATION_BAR := 2;
  ANNOUNCEMENT := 3;
  MATERIEL := 4;
  CONFIRM := 5;
  LOADING := 6;
  SKIP := 7;
  OPERATOR_ONGOING := 8;
  OPERATOR_FINISH := 9;
  OPERATOR_ELIMINATE_FINISH := 10;
  DOUBLE_CONFIRM := 11;
  MAIL := 12;
  LOGIN_START := 101;
  LOGIN_QUICKLY := 102;
  LOGIN_MAIN := 103;
  LOGIN_INPUT := 104;
  LOGIN_ANNOUNCE := 105;
  LOGIN_LOADING := 106
|}.

(** The world counts the calls of the task body and the taps the device
    received. *)
Record sim : Type := mkSim { body_calls : nat; taps_received : nat }.

Definition start : State sim := mkState (mkSim 0 0) [].

(** A world scripted by the outcome of each body call, the scene shown
    after each number of taps, and what the recognizer locates. *)
Definition scripted (body : nat -> outcome bool) (scene_after : nat -> Z)
    (nav_button : pyval) (found : string -> pyval) : Collaborators sim := {|
  device_tap _ w := (Ok tt, mkSim (body_calls w) (S (taps_received w)));
  device_send_text _ w := (Ok tt, w);
  device_swipe _ _ w := (Ok tt, w);
  device_smooth_swipe _ _ _ _ w := (Ok tt, w);
  device_display_frames w := (Ok PyNone, w);
  device_send_keyevent _ w := (Ok tt, w);
  recog_update _ w := (Ok tt, w);
  recog_find res _ _ _ _ w := (Ok (found res), w);
  recog_nav_button w := (Ok nav_button, w);
  recog_get_scene w := (Ok (scene_after (taps_received w)), w);
  recog_w _ := 1920;
  recog_h _ := 1080;
  detector_confirm w := (Ok PyNone, w);
  detector_announcement_close w := (Ok PyNone, w);
  time_passes _ w := w;
  stdin_input _ w := (Ok EmptyString, w);
  transition w := (body (body_calls w), mkSim (S (body_calls w)) (taps_received w))
|}.

Definition budget (n : Z) : Config := {| MAX_RETRYTIME := n |}.

Definition nothing_found (_ : string) : pyval := PyNone.

(** The body raises [StrategyError]. *)
Definition hopeless : Collaborators sim :=
  scripted (fun _ => Raise StrategyError) (fun _ => 0) PyNone nothing_found.

(** The body never recognizes the screen. *)
Definition blind : Collaborators sim :=
  scripted (fun _ => Raise (RecognizeError "blind")) (fun _ => 0) PyNone
           nothing_found.

(** The body fails to recognize the screen twice, then completes. *)
Definition flaky : Collaborators sim :=
  scripted (fun n => if (n <? 2)%nat then Raise (RecognizeError "flaky")
                     else Ok true)
           (fun _ => 0) PyNone nothing_found.

(** The body makes progress without completing. *)
Definition plodding : Collaborators sim :=
  scripted (fun _ => Ok false) (fun _ => 0) PyNone nothing_found.

(** The mail overlay is open and one tap closes it. *)
Definition mail_open : Collaborators sim :=
  scripted (fun _ => Ok true)
           (fun taps => match taps with O => 12 | _ => 1 end)
           PyNone
           (fun res => if String.eqb res "mail" then Scope 100 40 300 101
                       else PyNone).

(** The home screen is showing. *)
Definition at_home : Collaborators sim :=
  scripted (fun _ => Ok true) (fun _ => 1) PyNone nothing_found.

(** A screen that is not the navigation bar, with a navigation toggle
    whose tap changes nothing. *)
Definition stuck_toggle : Collaborators sim :=
  scripted (fun _ => Ok true) (fun _ => 12) (Coordinate 30 40) nothing_found.

End Example.

(** ** Further vocabulary *)

(** The computation raises [RecognizeError], the one exception the retry
    loops catch. *)
Definition unrecognized {A : Type} (o : outcome A) : Prop :=
  exists msg, o = Raise (RecognizeError msg).

Definition point_add (p m : Z * Z) : Z * Z := (fst p + fst m, snd p + snd m).

(** Sum of a list of movements. *)
Definition total_move (movements : list (Z * Z)) : Z * Z :=
  fold_left point_add movements (0, 0).

(** An integer coordinate that binary64 holds exactly, together with its
    half and with its sum with another such coordinate. *)
Definition binary64_exact (z : Z) : Prop := Z.abs z <= 2 ^ 52.

(** Two consecutive waypoints differ in one coordinate at most. *)
Definition axis_parallel (p q : Z * Z) : Prop := fst p = fst q \/ snd p = snd q.

(** What one pass of [login] or [back_to_index] that ends in
    [RecognizeError] leaves in the trace. *)
Definition retry_pause : list event :=
  [EvLog WARNING; EvTimeSleep 3; EvRecogUpdate true].

Definition is_refresh (e : event) : bool :=
  match e with EvRecogUpdate _ => true | _ => false end.

Section FurtherBehaviours.

Context {W : Type} {cfg : Config} {scenes : SceneTable} {ext : Collaborators W}.

(** The scene codes [is_login] rejects: the bands 1xx and 99xx and -1. *)
Definition logged_out (sc : Z) : bool :=
  (sc / 100 =? 1) || (sc / 100 =? 99) || (sc =? -1).

(** No branch of [login] tests for the scene. *)
Definition unhandled_by_login (sc : Z) : bool :=
  negb (sc =? LOGIN_START) && negb (sc =? LOGIN_QUICKLY) &&
  negb (sc =? LOGIN_MAIN) && negb (sc =? LOGIN_INPUT) &&
  negb (sc =? LOGIN_ANNOUNCE) && negb (sc =? LOGIN_LOADING) &&
  negb (sc =? LOADING) && negb (sc =? CONFIRM).

(** No branch of [back_to_index] tests for the scene. *)
Definition unhandled_by_back_to_index (sc : Z) : bool :=
  negb (sc =? NAVIGATION_BAR) && negb (sc =? ANNOUNCEMENT) &&
  negb (sc =? MATERIEL) && negb (sc / 100 =? 1) &&
  negb (sc =? CONFIRM) && negb (sc =? LOADING) && negb (sc =? SKIP) &&
  negb (sc =? OPERATOR_ONGOING) && negb (sc =? OPERATOR_FINISH) &&
  negb (sc =? OPERATOR_ELIMINATE_FINISH) && negb (sc =? DOUBLE_CONFIRM) &&
  negb (sc =? MAIL).

(** The recognizer reports the scene [sc] whatever happens, and reading it
    changes nothing. *)
Definition scene_frozen (sc : Z) : Prop :=
  forall w, recog_get_scene w = (Ok sc, w).

(** The navigation toggle is never found. *)
Definition nav_button_absent : Prop :=
  forall w, recog_nav_button w = (Ok PyNone, w).


(** The mail region is always found, at the same place. *)
Definition mail_found_at (x0 y0 x1 y1 : Z) : Prop :=
  forall w,
    recog_find "mail" false PyNone None true w =
    (Ok (Scope (inject_Z x0) (inject_Z y0) (inject_Z x1) (inject_Z y1)), w).

(** An exception other than the two the loop of [run] handles. *)
Definition is_defect (e : exn) : bool :=
  match e with
  | RecognizeError _ | StrategyError => false
  | _ => true
  end.

End FurtherBehaviours.

(** ** Further scripted worlds *)

Module Scenario.

(** The body hits a defect. *)
Definition broken : Collaborators Example.sim :=
  Example.scripted (fun _ => Raise TypeError) (fun _ => 0) PyNone
                   Example.nothing_found.

(** No scene is recognized: the recognizer reports -1. *)
Definition lost : Collaborators Example.sim :=
  Example.scripted (fun _ => Ok true) (fun _ => -1) PyNone
                   Example.nothing_found.

(** The mail overlay stays open whatever is tapped. *)
Definition mail_stuck : Collaborators Example.sim :=
  Example.scripted (fun _ => Ok true) (fun _ => 12) PyNone
                   (fun res => if String.eqb res "mail"
                               then Scope (inject_Z 100) (inject_Z 40)
                                          (inject_Z 300) (inject_Z 101)
                               else PyNone).

(** The navigation bar is open and its home entry leads home. *)
Definition bar_open : Collaborators Example.sim :=
  Example.scripted (fun _ => Ok true)
                   (fun taps => match taps with O => 2 | _ => 1 end)
                   PyNone
                   (fun res => if String.eqb res "nav_index"
                               then Scope 40 20 100 60 else PyNone).

(** The login screen is showing and nothing on it is found. *)
Definition at_login : Collaborators Example.sim :=
  Example.scripted (fun _ => Ok true) (fun _ => 103) PyNone
                   Example.nothing_found.

(** The collaborators [c] with a recognizer that cannot classify the
    screen. *)
Definition blacked_out (c : Collaborators Example.sim)
    : Collaborators Example.sim := {|
  device_tap := device_tap (Collaborators := c);
  device_send_text := device_send_text (Collaborators := c);
  device_swipe := device_swipe (Collaborators := c);
  device_smooth_swipe := device_smooth_swipe (Collaborators := c);
  device_display_frames := device_display_frames (Collaborators := c);
  device_send_keyevent := device_send_keyevent (Collaborators := c);
  recog_update := recog_update (Collaborators := c);
  recog_find := recog_find (Collaborators := c);
  recog_nav_button := recog_nav_button (Collaborators := c);
  recog_get_scene w := (Raise (RecognizeError "no scene"), w);
  recog_w := recog_w (Collaborators := c);
  recog_h := recog_h (Collaborators := c);
  detector_confirm := detector_confirm (Collaborators := c);
  detector_announcement_close := detector_announcement_close (Collaborators := c);
  time_passes := time_passes (Collaborators := c);
  stdin_input := stdin_input (Collaborators := c);
  transition := transition (Collaborators := c)
|}.

End Scenario.

(** * Properties *)

(** ** Geometry resolver *)

Lemma Qtruncate_comp (p q : Q) : (p == q)%Q -> Qtruncate p = Qtruncate q.
Proof.
  unfold Qeq, Qtruncate. intros E.
  rewrite <- (Z.quot_mul_cancel_r (Qnum p) (Zpos (Qden p)) (Zpos (Qden q)))
    by discriminate.
  rewrite E, (Z.mul_comm (Zpos (Qden p))).
  apply Z.quot_mul_cancel_r; discriminate.
Qed.



(** The two-point branch of the model, with its arithmetic exact. *)
Lemma get_pos_scope_eq (x0 y0 x1 y1 x_rate y_rate : Q) :
  get_pos (Scope x0 y0 x1 y1) x_rate y_rate =
  Ok (Qtruncate (x0 * (1 - x_rate) + x1 * x_rate),
      Qtruncate (y0 * (1 - y_rate) + y1 * y_rate)).
Proof. reflexivity. Qed.


(** C4. Whatever the anchor weights, [get_pos] on [None] raises
    [RecognizeError]. *)
Theorem get_pos_none_raises (x_rate y_rate : Q) :
  get_pos PyNone x_rate y_rate = Raise (RecognizeError "poly is empty").
Proof. reflexivity. Qed.








(** ** The retry loop of [run] *)

Section RunProperties.

Context {W : Type} {cfg : Config} {scenes : SceneTable} {ext : Collaborators W}.

Lemma count_app (p : event -> bool) (t u : list event) :
  count p (t ++ u) = (count p t + count p u)%nat.
Proof. unfold count. now rewrite filter_app, length_app. Qed.

Lemma count_repeat_retry (p : event -> bool) (n : nat) :
  count p (repeat_events n retry_events) = (n * count p retry_events)%nat.
Proof.
  induction n as [|n IH]; [reflexivity|].
  cbn [repeat_events]. rewrite count_app, IH. simpl. lia.
Qed.

(** The pause of the handlers: three seconds, then a fresh screenshot. *)
Lemma sleep_3_eq (s : State W) (w2 : W) :
  recog_update true (time_passes 3 (world s)) = (Ok tt, w2) ->
  sleep 3 true s =
  Some (Ok tt, mkState w2 (trace s ++ [EvTimeSleep 3; EvRecogUpdate true])).
Proof.
  intros H. unfold sleep, time_sleep, call, emit, ask, bind. cbn.
  rewrite H. now rewrite <- app_assoc.
Qed.

Lemma run_loop_exhausted (fuel : nat) (r : Z) (s : State W) :
  r <= 0 -> run_loop fuel r s = Some (Ok (Exhausted r), s).
Proof.
  intros H. destruct fuel; cbn [run_loop];
    (destruct (r >? 0) eqn:E; [lia | reflexivity]).
Qed.

Lemma run_loop_strategy (fuel : nat) (r : Z) (s : State W) (w1 : W) :
  0 < r ->
  transition (world s) = (Raise StrategyError, w1) ->
  run_loop (S fuel) r s =
  Some (Ok (Aborted r),
        mkState w1 (trace s ++ [EvTransition; EvLog ERROR; EvLog DEBUG])).
Proof.
  intros Hr Ht. cbn [run_loop]. destruct (r >? 0) eqn:E; [|lia].
  unfold bind, try_, call, emit, ask, ret. cbn. rewrite Ht. cbn.
  now rewrite <- !app_assoc.
Qed.

Lemma run_loop_completes (fuel : nat) (r : Z) (s : State W) (w1 : W) :
  0 < r ->
  transition (world s) = (Ok true, w1) ->
  run_loop (S fuel) r s =
  Some (Ok (Completed r), mkState w1 (trace s ++ [EvTransition])).
Proof.
  intros Hr Ht. cbn [run_loop]. destruct (r >? 0) eqn:E; [|lia].
  unfold bind, try_, call, emit, ask, ret. cbn. now rewrite Ht.
Qed.

Lemma run_loop_progress (fuel : nat) (r : Z) (s : State W) (w1 : W) :
  0 < r ->
  transition (world s) = (Ok false, w1) ->
  run_loop (S fuel) r s =
  run_loop fuel MAX_RETRYTIME (mkState w1 (trace s ++ [EvTransition])).
Proof.
  intros Hr Ht. cbn [run_loop]. destruct (r >? 0) eqn:E; [|lia].
  unfold bind at 1. unfold try_, call, emit, ask, bind at 1. cbn.
  now rewrite Ht.
Qed.

Lemma run_loop_retry (fuel : nat) (r : Z) (s : State W) (msg : string)
    (w1 w2 : W) :
  0 < r ->
  transition (world s) = (Raise (RecognizeError msg), w1) ->
  recog_update true (time_passes 3 w1) = (Ok tt, w2) ->
  run_loop (S fuel) r s =
  run_loop fuel (r - 1) (mkState w2 (trace s ++ retry_events)).
Proof.
  intros Hr Ht Hu. cbn [run_loop]. destruct (r >? 0) eqn:E; [|lia].
  unfold bind at 1. unfold try_, call, emit, ask, bind at 1. cbn.
  rewrite Ht. unfold bind at 1. cbn. unfold bind at 1.
  rewrite (sleep_3_eq _ w2) by exact Hu. cbn.
  now rewrite <- !app_assoc.
Qed.

Lemma run_loop_S (fuel : nat) (r : Z) :
  run_loop (S fuel) r =
  if r >? 0 then
    r0 <- try_ (call EvTransition transition) ;;
    match r0 with
    | Ok true => ret (Completed r)
    | Ok false => run_loop fuel MAX_RETRYTIME
    | Raise (RecognizeError _) =>
        emit (EvLog WARNING) ;; sleep 3 true ;; run_loop fuel (r - 1)
    | Raise StrategyError =>
        emit (EvLog ERROR) ;; emit (EvLog DEBUG) ;; ret (Aborted r)
    | Raise e => raise e
    end
  else ret (Exhausted r).
Proof. reflexivity. Qed.

(** Fuel only bounds the number of passes: a result reached with some
    fuel is the result with more. *)
Lemma run_loop_more_fuel (fuel : nat) :
  forall (r : Z) (s : State W) (x : outcome run_exit * State W),
    run_loop fuel r s = Some x -> run_loop (S fuel) r s = Some x.
Proof.
  induction fuel as [|fuel IH]; intros r s x.
  - cbn [run_loop]. destruct (r >? 0); [discriminate | trivial].
  - rewrite (run_loop_S (S fuel)), (run_loop_S fuel).
    destruct (r >? 0); [|trivial].
    intros H. unfold bind at 1. unfold bind at 1 in H.
    destruct (try_ (call EvTransition transition) s) as [[[o|e] s1]|];
      [|exact H|exact H].
    destruct o as [[|]|e]; [exact H|now apply IH|].
    destruct e; try exact H.
    unfold bind at 1. unfold bind at 1 in H.
    destruct (emit (EvLog WARNING) s1) as [[[[]|e] s2]|]; try exact H.
    unfold bind at 1. unfold bind at 1 in H.
    destruct (sleep 3 true s2) as [[[[]|e] s3]|]; try exact H.
    now apply IH.
Qed.

(** With the body blind on every call the loop spends its whole budget,
    one attempt per unit. *)
Lemma run_loop_blind :
  always_unrecognized -> refresh_succeeds ->
  forall (n fuel : nat) (s : State W),
    (n <= fuel)%nat ->
    exists w',
      run_loop fuel (Z.of_nat n) s =
      Some (Ok (Exhausted 0),
            mkState w' (trace s ++ repeat_events n retry_events)).
Proof.
  intros Hblind Hrefresh.
  induction n as [|n IH]; intros fuel s Hfuel.
  - exists (world s). rewrite run_loop_exhausted by lia.
    cbn [repeat_events]. rewrite app_nil_r. now destruct s.
  - destruct fuel as [|fuel]; [lia|].
    destruct (Hblind (world s)) as (msg & w1 & Ht).
    destruct (Hrefresh true (time_passes 3 w1)) as (w2 & Hu).
    rewrite (run_loop_retry fuel _ s msg w1 w2) by (lia || assumption).
    replace (Z.of_nat (S n) - 1) with (Z.of_nat n) by lia.
    destruct (IH fuel (mkState w2 (trace s ++ retry_events))) as (w' & E);
      [lia|].
    exists w'. rewrite E. cbn [trace repeat_events]. now rewrite <- app_assoc.
Qed.

(** A body that fails [n] times and then completes is run [n + 1] times
    and leaves the budget [n] units lower. *)
Lemma run_loop_flaky (n : nat) :
  forall (fuel : nat) (r : Z) (s : State W) (w_end : W),
    Z.of_nat n < r ->
    (n < fuel)%nat ->
    fails_then_completes n (world s) w_end ->
    run_loop fuel r s =
    Some (Ok (Completed (r - Z.of_nat n)),
          mkState w_end
            (trace s ++ repeat_events n retry_events ++ [EvTransition])).
Proof.
  induction n as [|n IH]; intros fuel r s w_end Hr Hfuel Hbody;
    (destruct fuel as [|fuel]; [lia|]).
  - cbn in Hbody. rewrite (run_loop_completes fuel r s w_end) by (lia || assumption).
    now rewrite Z.sub_0_r.
  - cbn [fails_then_completes] in Hbody.
    destruct Hbody as (msg & w1 & w2 & Ht & Hu & Hrest).
    rewrite (run_loop_retry fuel r s msg w1 w2) by (lia || assumption).
    rewrite (IH fuel (r - 1) _ w_end) by (lia || assumption).
    cbn [trace repeat_events]. rewrite <- !app_assoc.
    replace (r - 1 - Z.of_nat n) with (r - Z.of_nat (S n)) by lia.
    reflexivity.
Qed.

(** C1. When [transition] raises [StrategyError] the loop of [run] is left
    at once through the handler's [return]: the body was called once, the
    error is logged, nothing is slept or retried, [retry_times] keeps its
    value, and [run] returns normally instead of raising. *)
Theorem run_strategy_error_aborts (fuel : nat) (r : Z) (s : State W) (w1 : W) :
  0 < r ->
  transition (world s) = (Raise StrategyError, w1) ->
  let s' := mkState w1 (trace s ++ [EvTransition; EvLog ERROR; EvLog DEBUG]) in
  run_loop (S fuel) r s = Some (Ok (Aborted r), s') /\
  (r = MAX_RETRYTIME -> run (S fuel) s = Some (Ok tt, s')).
Proof.
  intros Hr Ht s'. split.
  - now apply run_loop_strategy.
  - intros ->. unfold run, bind.
    now rewrite (run_loop_strategy fuel _ s w1) by assumption.
Qed.

(** C2. With a budget [MAX_RETRYTIME >= 1] and a body that raises
    [RecognizeError] on every call, [run] calls the body exactly
    [MAX_RETRYTIME] times, each followed by the warning and the pause,
    leaves the loop with the budget at zero and returns normally. *)
Theorem run_gives_up_after_budget :
  1 <= MAX_RETRYTIME ->
  always_unrecognized ->
  refresh_succeeds ->
  forall (fuel : nat) (s : State W),
    (Z.to_nat MAX_RETRYTIME <= fuel)%nat ->
    exists w',
      let s' := mkState w' (trace s ++
                  repeat_events (Z.to_nat MAX_RETRYTIME) retry_events) in
      run_loop fuel MAX_RETRYTIME s = Some (Ok (Exhausted 0), s') /\
      run fuel s = Some (Ok tt, s') /\
      count is_transition (trace s') =
      (count is_transition (trace s) + Z.to_nat MAX_RETRYTIME)%nat.
Proof.
  intros Hb Hblind Hrefresh fuel s Hfuel.
  destruct (run_loop_blind Hblind Hrefresh (Z.to_nat MAX_RETRYTIME) fuel s Hfuel)
    as (w' & E).
  rewrite Z2Nat.id in E by lia.
  exists w'. cbn zeta. repeat split.
  - exact E.
  - unfold run, bind. now rewrite E.
  - cbn [trace]. rewrite count_app, count_repeat_retry. cbn. lia.
Qed.

(** C3. With a budget above [n], a body that raises [RecognizeError] on
    its first [n] calls and then returns [True] makes [run] complete: the
    body was called [n + 1] times and the budget stands [n] units below
    [MAX_RETRYTIME] when the loop is left.  And whenever an attempt returns
    without completing the task, the next pass starts with the budget back
    at [MAX_RETRYTIME]. *)
Theorem run_recovers_and_refills :
  (forall (n fuel : nat) (s : State W) (w_end : W),
      Z.of_nat n < MAX_RETRYTIME ->
      (n < fuel)%nat ->
      fails_then_completes n (world s) w_end ->
      let s' := mkState w_end (trace s ++ repeat_events n retry_events ++
                               [EvTransition]) in
      run_loop fuel MAX_RETRYTIME s =
      Some (Ok (Completed (MAX_RETRYTIME - Z.of_nat n)), s') /\
      run fuel s = Some (Ok tt, s') /\
      count is_transition (trace s') =
      (count is_transition (trace s) + n + 1)%nat) /\
  (forall (fuel : nat) (r : Z) (s : State W) (w1 : W),
      0 < r ->
      transition (world s) = (Ok false, w1) ->
      run_loop (S fuel) r s =
      run_loop fuel MAX_RETRYTIME (mkState w1 (trace s ++ [EvTransition]))).
Proof.
  split.
  - intros n fuel s w_end Hb Hfuel Hbody s'.
    pose proof (run_loop_flaky n fuel MAX_RETRYTIME s w_end Hb Hfuel Hbody) as E.
    repeat split.
    + exact E.
    + unfold run, bind. now rewrite E.
    + unfold s'. cbn [trace].
      rewrite !count_app, count_repeat_retry. cbn. lia.
  - intros. now apply run_loop_progress.
Qed.

End RunProperties.

Lemma run_strategy_error_aborts_example :
  let s' := mkState (Example.mkSim 1 0)
                    [EvTransition; EvLog ERROR; EvLog DEBUG] in
  run_loop (cfg := Example.budget 3) (ext := Example.hopeless) 1 3
           Example.start = Some (Ok (Aborted 3), s') /\
  run (cfg := Example.budget 3) (ext := Example.hopeless) 1 Example.start =
  Some (Ok tt, s').
Proof.
  destruct (run_strategy_error_aborts
              (cfg := Example.budget 3)
              (ext := Example.hopeless) 0 3 Example.start (Example.mkSim 1 0))
    as [Hloop Hrun]; [lia | reflexivity |].
  split; [exact Hloop | exact (Hrun eq_refl)].
Defined.

Lemma always_unrecognized_blind :
  always_unrecognized (ext := Example.blind).
Proof. intros w. now exists "blind", (Example.mkSim (S (Example.body_calls w)) (Example.taps_received w)). Defined.

Lemma refresh_succeeds_scripted body scene_after nav found :
  refresh_succeeds (ext := Example.scripted body scene_after nav found).
Proof. intros rebuild w. now exists w. Defined.

Lemma run_gives_up_after_budget_example :
  exists w',
    let s' := mkState w' (repeat_events 3 retry_events) in
    run_loop (cfg := Example.budget 3) (ext := Example.blind) 5 3
             Example.start = Some (Ok (Exhausted 0), s') /\
    run (cfg := Example.budget 3) (ext := Example.blind) 5 Example.start =
    Some (Ok tt, s') /\
    count is_transition (trace s') = 3%nat.
Proof.
  apply (run_gives_up_after_budget
           (cfg := Example.budget 3)
           (ext := Example.blind)).
  - cbn. lia.
  - exact always_unrecognized_blind.
  - apply refresh_succeeds_scripted.
  - cbn. lia.
Defined.

Lemma run_recovers_and_refills_example :
  (let s' := mkState (Example.mkSim 3 0)
                     (repeat_events 2 retry_events ++ [EvTransition]) in
   run_loop (cfg := Example.budget 5) (ext := Example.flaky) 4 5
            Example.start = Some (Ok (Completed 3), s') /\
   run (cfg := Example.budget 5) (ext := Example.flaky) 4 Example.start =
   Some (Ok tt, s') /\
   count is_transition (trace s') = 3%nat) /\
  run_loop (cfg := Example.budget 5) (ext := Example.plodding) 1 2
           Example.start =
  run_loop (cfg := Example.budget 5) (ext := Example.plodding) 0 5
           (mkState (Example.mkSim 1 0) [EvTransition]).
Proof.
  split.
  - apply (proj1 (run_recovers_and_refills
                    (cfg := Example.budget 5)
                    (ext := Example.flaky)) 2%nat 4%nat Example.start).
    + cbn. lia.
    + lia.
    + cbn. exists "flaky", (Example.mkSim 1 0), (Example.mkSim 1 0).
      split; [reflexivity|]. split; [reflexivity|].
      exists "flaky", (Example.mkSim 2 0), (Example.mkSim 2 0).
      split; [reflexivity|]. split; reflexivity.
  - apply (proj2 (run_recovers_and_refills
                    (cfg := Example.budget 5)
                    (ext := Example.plodding)) 0%nat 2 Example.start).
    + lia.
    + reflexivity.
Defined.

(** ** Gestures and scene navigation *)

Section NavigationProperties.

Context {W : Type} {cfg : Config} {scenes : SceneTable} {ext : Collaborators W}.

Lemma bind_ok {A B : Type} (m : SolverM W A) (k : A -> SolverM W B)
    (s s' : State W) (a : A) :
  m s = Some (Ok a, s') -> bind m k s = k a s'.
Proof. intros H. unfold bind. now rewrite H. Qed.

Lemma scene_eq (s : State W) (sc : Z) (w' : W) :
  recog_get_scene (world s) = (Ok sc, w') ->
  scene s = Some (Ok sc, mkState w' (trace s)).
Proof. intros H. unfold scene, ask. now rewrite H. Qed.

(** A query that leaves the world as it found it leaves the state alone. *)
Lemma scene_idle (s : State W) (sc : Z) :
  recog_get_scene (world s) = (Ok sc, world s) ->
  scene s = Some (Ok sc, s).
Proof. intros H. rewrite (scene_eq s sc (world s) H). now destruct s. Qed.

Lemma get_pos_coordinate_int (x y : Z) (x_rate y_rate : Q) :
  get_pos (Coordinate (inject_Z x) (inject_Z y)) x_rate y_rate = Ok (x, y).
Proof.
  unfold get_pos, Coordinate. cbn. unfold Qtruncate. cbn.
  now rewrite !Z.quot_1_r.
Qed.

Lemma mail_mid_y_scope (x0 y0 x1 y1 : Z) :
  mail_mid_y (Scope (inject_Z x0) (inject_Z y0) (inject_Z x1) (inject_Z y1)) =
  Ok ((y0 + y1) / 2).
Proof.
  unfold mail_mid_y, Scope, Coordinate. cbn. f_equal.
  unfold Qfloor. cbn. f_equal; lia.
Qed.

(** A tap with the default settle interval: the device is tapped, a second
    passes, the screenshot is refreshed. *)
Lemma tap_settles (poly : pyval) (x_rate y_rate : Q) (pos : Z * Z)
    (s : State W) (w1 w2 : W) :
  get_pos poly x_rate y_rate = Ok pos ->
  device_tap pos (world s) = (Ok tt, w1) ->
  recog_update true (time_passes 1 w1) = (Ok tt, w2) ->
  tap poly x_rate y_rate 1 true s =
  Some (Ok tt,
        mkState w2 (trace s ++ [EvTap pos; EvTimeSleep 1; EvRecogUpdate true])).
Proof.
  intros Hp Ht Hu.
  unfold tap, eval, sleep, time_sleep, call, emit, ask, bind. cbn.
  rewrite Hp. cbn. rewrite Ht. cbn. rewrite Hu.
  now rewrite <- !app_assoc.
Qed.

(** One pass of [swipe_noinertia] up to its settle step, for a vertical
    movement. *)
Lemma swipe_noinertia_vertical (start : Z * Z) (m duration : Z)
    (interval : Q) (rebuild : bool) (s : State W) (frames : pyval)
    (w1 w2 : W) :
  let points := [start; (fst start + 100, snd start);
                 (fst start + 100, snd start + m); (fst start, snd start + m)] in
  let durations := [200; Z.abs m * duration / 100; 200] in
  device_display_frames (world s) = (Ok frames, w1) ->
  device_smooth_swipe points frames durations 500 w1 = (Ok tt, w2) ->
  swipe_noinertia start (0, m) duration interval rebuild s =
  (if Qlt_bool 0 interval then sleep interval rebuild else ret tt)
    (mkState w2 (trace s ++ [EvSmoothSwipe points frames durations 500])).
Proof.
  intros points durations Hf Hs.
  unfold swipe_noinertia, noinertia_path. cbn [fst snd Z.eqb].
  unfold call, emit, ask, bind at 1. cbn. rewrite Hf.
  unfold bind at 1. unfold bind at 1. cbn.
  fold points. fold durations. rewrite Hs. reflexivity.
Qed.

(** C7, amended. A vertical movement of magnitude 200 with duration 100
    is sent as a four-point path that leaves the axis by 100 units, with
    the leg durations 200, 200 and 200: the middle leg lasts
    [200 * 100 // 100 = 200].  The release waits 500, and the settle step
    of the call follows. *)
Theorem swipe_noinertia_vertical_200 (start : Z * Z) (m : Z) (interval : Q)
    (rebuild : bool) (s : State W) (frames : pyval) (w1 w2 : W) :
  let points := [start; (fst start + 100, snd start);
                 (fst start + 100, snd start + m); (fst start, snd start + m)] in
  Z.abs m = 200 ->
  device_display_frames (world s) = (Ok frames, w1) ->
  device_smooth_swipe points frames [200; 200; 200] 500 w1 = (Ok tt, w2) ->
  swipe_noinertia start (0, m) 100 interval rebuild s =
  (if Qlt_bool 0 interval then sleep interval rebuild else ret tt)
    (mkState w2 (trace s ++ [EvSmoothSwipe points frames [200; 200; 200] 500])).
Proof.
  intros points Hm Hf Hs.
  assert (E : Z.abs m * 100 / 100 = 200) by (rewrite Hm; reflexivity).
  pose proof (swipe_noinertia_vertical start m 100 interval rebuild s frames
                w1 w2) as H.
  cbn zeta in H. rewrite E in H. now apply H.
Qed.

(** C9. Called on the home screen, [back_to_index] only writes its log
    line: the loop is not entered, the device receives nothing, and the
    call returns without raising. *)
Theorem back_to_index_at_index (fuel : nat) (s : State W) (w1 : W) :
  recog_get_scene (world s) = (Ok INDEX, w1) ->
  recog_get_scene w1 = (Ok INDEX, w1) ->
  back_to_index fuel s = Some (Ok tt, mkState w1 (trace s ++ [EvLog INFO])) /\
  forall s', back_to_index fuel s = Some (Ok tt, s') ->
             count is_device_action (trace s') =
             count is_device_action (trace s).
Proof.
  intros H0 H1.
  assert (E : back_to_index fuel s =
              Some (Ok tt, mkState w1 (trace s ++ [EvLog INFO]))).
  { unfold back_to_index. unfold bind at 1. cbn.
    destruct fuel; cbn [back_to_index_loop];
      (destruct (MAX_RETRYTIME =? 0) eqn:Eb;
       unfold bind, ret, scene, ask; cbn;
       [rewrite H0 | rewrite H0; cbn; rewrite Z.eqb_refl; cbn; rewrite H1];
       cbn; rewrite Z.eqb_refl; reflexivity). }
  split; [exact E|].
  intros s' E'. rewrite E in E'. injection E' as <-.
  cbn [trace]. unfold count. rewrite filter_app, length_app. cbn. lia.
Qed.

(** With the navigation toggle absent, [get_navigation] answers [False]
    (or [None], on an empty budget) without touching the device. *)
Lemma get_navigation_absent (fuel : nat) (s : State W) (sc : Z) :
  sc <> NAVIGATION_BAR ->
  recog_get_scene (world s) = (Ok sc, world s) ->
  recog_nav_button (world s) = (Ok PyNone, world s) ->
  exists v, get_navigation (S fuel) s = Some (Ok v, s) /\ truthy v = false.
Proof.
  intros Hsc Hs Hn. unfold get_navigation. cbn [get_navigation_loop].
  destruct (MAX_RETRYTIME =? 0).
  - now exists None.
  - exists (Some false). split; [|reflexivity].
    rewrite (bind_ok _ _ s s sc) by now apply scene_idle.
    apply Z.eqb_neq in Hsc. rewrite Hsc.
    unfold tap_element, bind, ask, ret. cbn. rewrite Hn. now destruct s.
Qed.

(** C8, amended. On the mail overlay, with the navigation bar out of
    reach, one pass of [back_to_index] locates the mail region and taps
    once, at the point whose x and y are both the floor of the mean of the
    region's two y coordinates; the tap is followed by its settle step. *)
Theorem back_to_index_mail_taps_mid_y (fuel : nat) (s : State W)
    (x0 y0 x1 y1 : Z) (w1 w2 : W) :
  let w := world s in
  let mid_y := (y0 + y1) / 2 in
  mail_is_distinct = true ->
  recog_get_scene w = (Ok MAIL, w) ->
  recog_nav_button w = (Ok PyNone, w) ->
  recog_find "mail" false PyNone None true w =
    (Ok (Scope (inject_Z x0) (inject_Z y0) (inject_Z x1) (inject_Z y1)), w) ->
  device_tap (mid_y, mid_y) w = (Ok tt, w1) ->
  recog_update true (time_passes 1 w1) = (Ok tt, w2) ->
  back_to_index_step (S fuel) s =
  Some (Ok tt,
        mkState w2 (trace s ++ [EvTap (mid_y, mid_y); EvTimeSleep 1;
                                EvRecogUpdate true])).
Proof.
  intros w mid_y Hd Hs Hn Hf Ht Hu.
  unfold mail_is_distinct in Hd.
  repeat (apply andb_prop in Hd; destruct Hd as [Hd ?]).
  repeat match goal with
         | H : negb _ = true |- _ => apply negb_true_iff in H
         end.
  assert (Hnav : MAIL <> NAVIGATION_BAR) by now apply Z.eqb_neq.
  destruct (get_navigation_absent fuel s MAIL Hnav Hs Hn) as (v & Ev & Hv).
  pose proof (scene_idle s MAIL Hs) as Hsc.
  unfold back_to_index_step.
  rewrite (bind_ok _ _ s s v Ev), Hv.
  repeat (rewrite (bind_ok _ _ s s MAIL Hsc);
          match goal with
          | H : ?c = false |- context [if ?c then _ else _] => rewrite H
          end).
  rewrite (bind_ok _ _ s s MAIL Hsc), Z.eqb_refl.
  assert (Ef : find "mail" false PyNone None true s =
               Some (Ok (Scope (inject_Z x0) (inject_Z y0)
                               (inject_Z x1) (inject_Z y1)), s)).
  { unfold find, ask. fold w. rewrite Hf. now destruct s. }
  rewrite (bind_ok _ _ s s _ Ef).
  unfold bind at 1, eval. rewrite mail_mid_y_scope. fold mid_y.
  apply (tap_settles _ _ _ (mid_y, mid_y) s w1 w2);
    [apply get_pos_coordinate_int | exact Ht | exact Hu].
Qed.

(** One pass of the loop of [get_navigation] in which the navigation bar
    is not showing and the toggle is found and tapped. *)
Lemma get_navigation_loop_tapped (fuel : nat) (r : Z) (s : State W) :
  r <> 0 ->
  navigation_bar_never_seen -> nav_button_always_found ->
  taps_succeed -> refresh_succeeds ->
  exists s',
    get_navigation_loop (S fuel) r s = get_navigation_loop fuel (r - 1) s' /\
    count is_tap (trace s') = S (count is_tap (trace s)).
Proof.
  intros Hr Hscene Hnav Htap Hrefresh.
  destruct (Hscene (world s)) as (sc & wa & Hs & Hsc).
  destruct (Hnav wa) as (el & pos & wb & Hn & Hp).
  destruct (Htap pos wb) as (wc & Ht).
  destruct (Hrefresh true (time_passes 1 wc)) as (wd & Hu).
  exists (mkState wd (trace s ++ [EvTap pos; EvTimeSleep 1; EvRecogUpdate true])).
  split.
  - cbn [get_navigation_loop]. apply Z.eqb_neq in Hr, Hsc. rewrite Hr.
    rewrite (bind_ok _ _ _ _ _ (scene_eq s sc wa Hs)), Hsc.
    assert (Et : tap_element "nav_button" (1#2) (1#2) 1 true false PyNone
                             true true (mkState wa (trace s)) =
                 Some (Ok true,
                       mkState wd (trace s ++ [EvTap pos; EvTimeSleep 1;
                                               EvRecogUpdate true]))).
    { unfold tap_element. cbn [String.eqb Ascii.eqb Bool.eqb].
      assert (Ea : ask recog_nav_button (mkState wa (trace s)) =
                   Some (Ok el, mkState wb (trace s)))
        by (unfold ask; cbn; now rewrite Hn).
      rewrite (bind_ok _ _ _ _ _ Ea).
      destruct el as [|q|items]; [discriminate Hp| |];
        (rewrite (bind_ok _ _ _ _ tt
                    (tap_settles _ _ _ pos (mkState wb (trace s)) wc wd Hp Ht Hu));
         reflexivity). }
    now rewrite (bind_ok _ _ _ _ _ Et).
  - cbn [trace]. unfold count. rewrite filter_app, length_app. cbn. lia.
Qed.

Lemma get_navigation_loop_runs_dry :
  navigation_bar_never_seen -> nav_button_always_found ->
  taps_succeed -> refresh_succeeds ->
  forall (n fuel : nat) (s : State W),
    (n <= fuel)%nat ->
    exists s',
      get_navigation_loop fuel (Z.of_nat n) s = Some (Ok None, s') /\
      count is_tap (trace s') = (count is_tap (trace s) + n)%nat.
Proof.
  intros Hscene Hnav Htap Hrefresh.
  induction n as [|n IH]; intros fuel s Hfuel.
  - exists s. split; [|lia]. now destruct fuel.
  - destruct fuel as [|fuel]; [lia|].
    destruct (get_navigation_loop_tapped fuel (Z.of_nat (S n)) s)
      as (s1 & E1 & C1); try assumption; [lia|].
    replace (Z.of_nat (S n) - 1) with (Z.of_nat n) in E1 by lia.
    destruct (IH fuel s1) as (s' & E & C); [lia|].
    exists s'. split; [now rewrite E1|lia].
Qed.

(** C10. With a budget [MAX_RETRYTIME >= 0], when the recognizer never
    reports the navigation bar while the toggle is found and tapped on
    every pass, [get_navigation] taps [MAX_RETRYTIME] times, leaves its
    loop and returns [None], which is neither [True] nor [False]. *)
Theorem get_navigation_returns_none :
  0 <= MAX_RETRYTIME ->
  navigation_bar_never_seen -> nav_button_always_found ->
  taps_succeed -> refresh_succeeds ->
  forall (fuel : nat) (s : State W),
    (Z.to_nat MAX_RETRYTIME <= fuel)%nat ->
    exists s',
      get_navigation fuel s = Some (Ok None, s') /\
      truthy None = false /\
      count is_tap (trace s') =
      (count is_tap (trace s) + Z.to_nat MAX_RETRYTIME)%nat.
Proof.
  intros Hb Hscene Hnav Htap Hrefresh fuel s Hfuel.
  destruct (get_navigation_loop_runs_dry Hscene Hnav Htap Hrefresh
              (Z.to_nat MAX_RETRYTIME) fuel s Hfuel) as (s' & E & C).
  rewrite Z2Nat.id in E by lia.
  exists s'. now repeat split.
Qed.

End NavigationProperties.

(** C7, as stated, fails: for the movement (0, 200) with duration 100 the
    three leg durations sent to the device are 200, 200 and 200; no run of
    the call sends 400 for the middle leg. *)
Lemma swipe_noinertia_middle_leg_not_400 :
  swipe_noinertia (ext := Example.at_home) (500, 600) (0, 200) 100 1 false
                  Example.start =
  Some (Ok tt,
        mkState (Example.mkSim 0 0)
          [EvSmoothSwipe [(500, 600); (600, 600); (600, 800); (500, 800)]
                         PyNone [200; 200; 200] 500;
           EvTimeSleep 1; EvRecogUpdate false]) /\
  ~ (exists s' points frames first last up_wait rest,
        swipe_noinertia (ext := Example.at_home) (500, 600) (0, 200) 100 1
                        false Example.start = Some (Ok tt, s') /\
        trace s' =
        EvSmoothSwipe points frames [first; 400; last] up_wait :: rest).
Proof.
  split; [reflexivity|].
  intros (s' & points & frames & first & last & up_wait & rest & E & T).
  vm_compute in E. injection E as <-. cbn in T. discriminate T.
Qed.

Lemma swipe_noinertia_vertical_200_example :
  swipe_noinertia (ext := Example.at_home) (500, 600) (0, -200) 100 1 false
                  Example.start =
  Some (Ok tt,
        mkState (Example.mkSim 0 0)
          [EvSmoothSwipe [(500, 600); (600, 600); (600, 400); (500, 400)]
                         PyNone [200; 200; 200] 500;
           EvTimeSleep 1; EvRecogUpdate false]).
Proof.
  exact (swipe_noinertia_vertical_200 (ext := Example.at_home)
           (500, 600) (-200) 1 false Example.start PyNone
           (Example.mkSim 0 0) (Example.mkSim 0 0) eq_refl eq_refl eq_refl).
Defined.

(** C8, as stated, fails: entered on the mail overlay, with the overlay
    closing at the first tap, [back_to_index] reaches the home screen
    having tapped once, not twice. *)
Lemma back_to_index_mail_taps_once :
  back_to_index (cfg := Example.budget 3) (scenes := Example.scene_table)
                (ext := Example.mail_open) 2 Example.start =
  Some (Ok tt,
        mkState (Example.mkSim 0 1)
          [EvLog INFO; EvTap (70, 70); EvTimeSleep 1; EvRecogUpdate true]) /\
  ~ (exists s',
        back_to_index (cfg := Example.budget 3)
                      (scenes := Example.scene_table)
                      (ext := Example.mail_open) 2 Example.start =
        Some (Ok tt, s') /\
        count is_tap (trace s') = 2%nat).
Proof.
  split; [reflexivity|].
  intros (s' & E & T). vm_compute in E. injection E as <-.
  vm_compute in T. discriminate T.
Qed.

Lemma back_to_index_mail_taps_mid_y_example :
  back_to_index_step (cfg := Example.budget 3)
                     (scenes := Example.scene_table)
                     (ext := Example.mail_open) 1 Example.start =
  Some (Ok tt,
        mkState (Example.mkSim 0 1)
          [EvTap (70, 70); EvTimeSleep 1; EvRecogUpdate true]).
Proof.
  exact (back_to_index_mail_taps_mid_y
           (cfg := Example.budget 3) (scenes := Example.scene_table)
           (ext := Example.mail_open) 0 Example.start 100 40 300 101
           (Example.mkSim 0 1) (Example.mkSim 0 1)
           eq_refl eq_refl eq_refl eq_refl eq_refl eq_refl).
Defined.

Lemma back_to_index_at_index_example :
  back_to_index (cfg := Example.budget 3) (scenes := Example.scene_table)
                (ext := Example.at_home) 0 Example.start =
  Some (Ok tt, mkState (Example.mkSim 0 0) [EvLog INFO]) /\
  forall s',
    back_to_index (cfg := Example.budget 3) (scenes := Example.scene_table)
                  (ext := Example.at_home) 0 Example.start = Some (Ok tt, s') ->
    count is_device_action (trace s') = 0%nat.
Proof.
  exact (back_to_index_at_index
           (cfg := Example.budget 3) (scenes := Example.scene_table)
           (ext := Example.at_home) 0 Example.start (Example.mkSim 0 0)
           eq_refl eq_refl).
Defined.

Lemma navigation_bar_never_seen_stuck :
  navigation_bar_never_seen (scenes := Example.scene_table)
                            (ext := Example.stuck_toggle).
Proof. intros w. exists 12, w. split; [reflexivity | discriminate]. Defined.

Lemma nav_button_always_found_stuck :
  nav_button_always_found (ext := Example.stuck_toggle).
Proof. intros w. now exists (Coordinate 30 40), (30, 40), w. Defined.

Lemma taps_succeed_scripted body scene_after nav found :
  taps_succeed (ext := Example.scripted body scene_after nav found).
Proof.
  intros pos w.
  now exists (Example.mkSim (Example.body_calls w) (S (Example.taps_received w))).
Defined.

Lemma get_navigation_returns_none_example :
  exists s',
    get_navigation (cfg := Example.budget 3) (scenes := Example.scene_table)
                   (ext := Example.stuck_toggle) 3 Example.start =
    Some (Ok None, s') /\
    truthy None = false /\
    count is_tap (trace s') = 3%nat.
Proof.
  apply (get_navigation_returns_none
           (cfg := Example.budget 3) (scenes := Example.scene_table)
           (ext := Example.stuck_toggle)).
  - cbn. lia.
  - exact navigation_bar_never_seen_stuck.
  - exact nav_button_always_found_stuck.
  - apply taps_succeed_scripted.
  - apply refresh_succeeds_scripted.
  - cbn. lia.
Defined.

(** * Further properties *)

(** ** [get_pos]: shapes, errors and range *)

Lemma obind_recognized {A B : Type} (o : outcome A) (k : A -> outcome B) :
  ~ unrecognized o -> (forall a, ~ unrecognized (k a)) ->
  ~ unrecognized (obind o k).
Proof.
  intros Ho Hk. destruct o as [a|e]; cbn; [apply Hk|].
  intros [msg E]. apply Ho. exists msg. now injection E as ->.
Qed.

Lemma py_coord_recognized (v : pyval) (i j : nat) :
  ~ unrecognized (py_coord v i j).
Proof.
  unfold py_coord, py_getitem, py_num.
  destruct v as [| |items]; cbn; try (intros [msg E]; discriminate E).
  destruct (nth_error items i) as [row|]; cbn;
    [|intros [msg E]; discriminate E].
  destruct row as [| |cells]; cbn; try (intros [msg E]; discriminate E).
  destruct (nth_error cells j) as [[| |]|]; cbn; intros [msg E]; discriminate E.
Qed.

Lemma py_int_recognized (v : pyval) : ~ unrecognized (py_int v).
Proof. destruct v; cbn; intros [msg E]; discriminate E. Qed.

Lemma Ok_recognized {A : Type} (a : A) : ~ unrecognized (Ok a).
Proof. intros [msg E]; discriminate E. Qed.

(** X1. [get_pos] raises [RecognizeError] for [None] only: on any other
    value, well formed or not, it returns or raises a different
    exception, which no retry loop catches. *)
Theorem get_pos_unrecognized_only_none (poly : pyval) (x_rate y_rate : Q) :
  unrecognized (get_pos poly x_rate y_rate) -> poly = PyNone.
Proof.
  destruct poly as [|q|items]; [reflexivity| |];
    intros H; exfalso; revert H.
  - intros [msg E]; discriminate E.
  - unfold get_pos.
    apply obind_recognized; [apply Ok_recognized|]. intros n.
    apply obind_recognized.
    + destruct (n =? 4).
      * repeat (apply obind_recognized; [apply py_coord_recognized|intros ?]).
        apply Ok_recognized.
      * apply obind_recognized.
        { destruct (n =? 2); [|apply Ok_recognized].
          unfold py_getitem. destruct (nth_error items 0);
            intros [msg E]; discriminate E. }
        intros p0. destruct ((n =? 2) && is_list_or_tuple p0).
        -- repeat (apply obind_recognized; [apply py_coord_recognized|intros ?]).
           apply Ok_recognized.
        -- unfold py_unpack2.
           destruct items as [|a [|b [|c rest]]]; intros [msg E]; discriminate E.
    + intros xy.
      repeat (apply obind_recognized; [apply py_int_recognized|intros ?]).
      apply Ok_recognized.
Qed.

Lemma get_pos_unrecognized_only_none_example :
  PyNone = PyNone.
Proof.
  apply (get_pos_unrecognized_only_none PyNone (1#2) (1#2)).
  now exists "poly is empty".
Defined.

(** X2. A sequence whose length is neither 2 nor 4, the empty list
    included, is unpacked as a coordinate and raises [ValueError]. *)
Theorem get_pos_wrong_length (items : list pyval) (x_rate y_rate : Q) :
  List.length items <> 2%nat -> List.length items <> 4%nat ->
  get_pos (PyTuple items) x_rate y_rate = Raise ValueError.
Proof.
  intros H2 H4. unfold get_pos, py_len. cbn [obind].
  destruct (Z.of_nat (List.length items) =? 4) eqn:E4;
    [apply Z.eqb_eq in E4; lia|].
  destruct (Z.of_nat (List.length items) =? 2) eqn:E2;
    [apply Z.eqb_eq in E2; lia|].
  cbn. destruct items as [|a [|b [|c rest]]]; cbn; try reflexivity.
  now contradiction H2.
Qed.

Lemma get_pos_wrong_length_example :
  get_pos (PyTuple []) (1#2) (1#2) = Raise ValueError /\
  get_pos (PyTuple [PyNum 1; PyNum 2; PyNum 3]) (1#2) (1#2) = Raise ValueError.
Proof.
  split; apply get_pos_wrong_length; cbn; lia.
Defined.

(** X3. A coordinate goes through [get_pos] with the weights ignored: each
    number is truncated toward zero, and an integer point comes back as it
    is, so a position [get_pos] returned resolves to itself. *)
Theorem get_pos_coordinate :
  (forall x y x_rate y_rate : Q,
      get_pos (Coordinate x y) x_rate y_rate = Ok (Qtruncate x, Qtruncate y)) /\
  (forall (x y : Z) (x_rate y_rate : Q),
      get_pos (Coordinate (inject_Z x) (inject_Z y)) x_rate y_rate = Ok (x, y)).
Proof.
  split; [reflexivity|]. intros. apply get_pos_coordinate_int.
Qed.

(** X5. On a two-point location whose corners are integers that binary64
    holds exactly, the weights (0, 0) return the first corner and (1, 1)
    the second. *)
Theorem get_pos_scope_corners (x0 y0 x1 y1 : Z) :
  binary64_exact x0 -> binary64_exact y0 ->
  binary64_exact x1 -> binary64_exact y1 ->
  get_pos (Scope (inject_Z x0) (inject_Z y0) (inject_Z x1) (inject_Z y1))
          0 0 = Ok (x0, y0) /\
  get_pos (Scope (inject_Z x0) (inject_Z y0) (inject_Z x1) (inject_Z y1))
          1 1 = Ok (x1, y1).
Proof.
  intros _ _ _ _.
  assert (Hz : forall z : Z, Qtruncate (inject_Z z) = z)
    by (intros z; unfold Qtruncate; cbn; apply Z.quot_1_r).
  rewrite !get_pos_scope_eq. split; f_equal; f_equal;
    match goal with
    | |- _ = ?z => rewrite <- (Hz z) at 2
    end; apply Qtruncate_comp; ring.
Qed.

Lemma get_pos_scope_corners_example :
  get_pos (Scope (inject_Z 100) (inject_Z 40) (inject_Z 300) (inject_Z 101))
          0 0 = Ok (100, 40) /\
  get_pos (Scope (inject_Z 100) (inject_Z 40) (inject_Z 300) (inject_Z 101))
          1 1 = Ok (300, 101).
Proof.
  apply (get_pos_scope_corners 100 40 300 101);
    unfold binary64_exact; cbn; lia.
Defined.

(** ** Taps and swipes *)

Section GestureProperties.

Context {W : Type} {ext : Collaborators W}.

(** X8. When the looked-up element is absent, [tap_element] does not
    touch the device: with [detected] it returns [False], without it
    [get_pos] raises [RecognizeError]. *)
Theorem tap_element_not_found (element_name : string)
    (x_rate y_rate interval : Q) (rebuild draw : bool) (scope : pyval)
    (judge detected : bool) (s : State W) (w1 : W) :
  (if String.eqb element_name "nav_button" then recog_nav_button
   else recog_find element_name draw scope None judge) (world s) =
    (Ok PyNone, w1) ->
  tap_element element_name x_rate y_rate interval rebuild draw scope judge
              detected s =
  Some (if detected then Ok false else Raise (RecognizeError "poly is empty"),
        mkState w1 (trace s)).
Proof.
  intros H. unfold tap_element.
  assert (E : (if String.eqb element_name "nav_button"
               then ask recog_nav_button
               else find element_name draw scope None judge) s =
              Some (Ok PyNone, mkState w1 (trace s))).
  { unfold find. destruct (String.eqb element_name "nav_button");
      unfold ask; now rewrite H. }
  unfold bind at 1. rewrite E. now destruct detected.
Qed.

Lemma moves_from_length (start : Z * Z) (movements : list (Z * Z)) :
  List.length (moves_from start movements) = List.length movements.
Proof.
  revert start. induction movements as [|m ms IH]; intros start; cbn;
    [reflexivity | now rewrite IH].
Qed.

Lemma fold_point_add (ms : list (Z * Z)) (p q : Z * Z) :
  point_add p (fold_left point_add ms q) =
  fold_left point_add ms (point_add p q).
Proof.
  revert q. induction ms as [|m ms IH]; intros q; cbn; [reflexivity|].
  rewrite IH. f_equal. unfold point_add; cbn. f_equal; lia.
Qed.

Lemma moves_from_nth (ms : list (Z * Z)) :
  forall (k : nat) (start d : Z * Z),
    (k <= List.length ms)%nat ->
    nth k (start :: moves_from start ms) d =
    point_add start (total_move (firstn k ms)).
Proof.
  induction ms as [|m ms IH]; intros k start d Hk.
  - cbn in Hk. assert (k = 0%nat) as -> by lia. cbn.
    unfold point_add; cbn. destruct start; cbn. f_equal; lia.
  - destruct k as [|k].
    + cbn. unfold point_add; cbn. destruct start; cbn. f_equal; lia.
    + cbn [moves_from firstn]. cbn in Hk.
      fold (point_add start m).
      change (nth (S k) (start :: point_add start m ::
                           moves_from (point_add start m) ms) d)
        with (nth k (point_add start m ::
                       moves_from (point_add start m) ms) d).
      rewrite (IH k (point_add start m) d) by lia.
      unfold total_move. cbn [fold_left].
      rewrite !fold_point_add. f_equal.
      unfold point_add; cbn. destruct start, m; cbn. f_equal; lia.
Qed.

(** X9. [swipe_move] swipes through [len(movements) + 1] waypoints, the
    k-th being [start] plus the sum of the first k movements; it is
    [swipe_seq] on that path, and [swipe] is [swipe_move] with a single
    movement. *)
Theorem swipe_move_path (start : Z * Z) (movements : list (Z * Z))
    (duration : Z) (interval : Q) (rebuild : bool) :
  let points := start :: moves_from start movements in
  swipe_move start movements duration interval rebuild =
    swipe_seq points duration interval rebuild /\
  List.length points = S (List.length movements) /\
  (forall k d, (k <= List.length movements)%nat ->
     nth k points d = point_add start (total_move (firstn k movements))) /\
  (forall movement,
     swipe start movement duration interval rebuild =
     swipe_move start [movement] duration interval rebuild).
Proof.
  intros points. split; [reflexivity|]. split.
  - unfold points. cbn [List.length]. now rewrite moves_from_length.
  - split; [|reflexivity]. intros k d Hk. now apply moves_from_nth.
Qed.

(** X10. The path of [swipe_noinertia] has four waypoints, starts at
    [start] and runs parallel to an axis on each leg.  For a movement
    along one axis it ends at [start + movement] and the distance that
    scales the middle leg is the length of the movement. *)
Theorem noinertia_path_shape (start movement : Z * Z) :
  let (points, dis) := noinertia_path start movement in
  exists p1 p2 p3,
    points = [start; p1; p2; p3] /\
    axis_parallel start p1 /\ axis_parallel p1 p2 /\ axis_parallel p2 p3 /\
    0 <= dis /\
    (fst movement = 0 \/ snd movement = 0 ->
     p3 = point_add start movement /\
     dis = Z.abs (fst movement) + Z.abs (snd movement)).
Proof.
  unfold noinertia_path, axis_parallel, point_add.
  destruct start as [sx sy], movement as [mx my]. cbn [fst snd].
  destruct (mx =? 0) eqn:E.
  - apply Z.eqb_eq in E. subst mx. eexists _, _, _. split; [reflexivity|].
    cbn [fst snd]. repeat split; try (now right); try (now left); try lia.
    f_equal; lia.
  - apply Z.eqb_neq in E. eexists _, _, _. split; [reflexivity|].
    cbn [fst snd]. repeat split; try (now right); try (now left); try lia.
    f_equal; lia.
Qed.

(** X11. A movement with both components non-zero is swiped as its
    horizontal part: the vertical component is not read. *)
Theorem swipe_noinertia_drops_vertical (start : Z * Z) (mx my duration : Z)
    (interval : Q) (rebuild : bool) :
  mx <> 0 ->
  swipe_noinertia start (mx, my) duration interval rebuild =
  swipe_noinertia start (mx, 0) duration interval rebuild.
Proof.
  intros H. unfold swipe_noinertia, noinertia_path. cbn [fst snd].
  apply Z.eqb_neq in H. now rewrite H.
Qed.

End GestureProperties.

Lemma tap_element_not_found_example :
  tap_element (ext := Example.at_home) "skip" (1#2) (1#2) 1 true false PyNone
              true true Example.start = Some (Ok false, Example.start) /\
  tap_element (ext := Example.at_home) "nav_button" (1#2) (1#2) 1 true false
              PyNone true false Example.start =
  Some (Raise (RecognizeError "poly is empty"), Example.start).
Proof.
  split.
  - exact (tap_element_not_found (ext := Example.at_home) "skip" (1#2) (1#2) 1
             true false PyNone true true Example.start (Example.mkSim 0 0)
             eq_refl).
  - exact (tap_element_not_found (ext := Example.at_home) "nav_button" (1#2)
             (1#2) 1 true false PyNone true false Example.start
             (Example.mkSim 0 0) eq_refl).
Defined.

Lemma swipe_noinertia_drops_vertical_example :
  swipe_noinertia (ext := Example.at_home) (500, 600) (300, 40) 100 1 false =
  swipe_noinertia (ext := Example.at_home) (500, 600) (300, 0) 100 1 false.
Proof.
  apply (swipe_noinertia_drops_vertical (ext := Example.at_home)). lia.
Defined.

(** ** The retry loops beyond the scenarios above *)

Section LoopProperties.

Context {W : Type} {cfg : Config} {scenes : SceneTable} {ext : Collaborators W}.

Lemma attempt_eq (s : State W) :
  try_ (call EvTransition transition) s =
  Some (Ok (fst (transition (world s))),
        mkState (snd (transition (world s))) (trace s ++ [EvTransition])).
Proof.
  unfold try_, call, emit, ask, bind. cbn.
  now destruct (transition (world s)).
Qed.

Lemma run_loop_escapes (fuel : nat) :
  refresh_succeeds ->
  forall (r : Z) (s s' : State W) (e : exn),
    run_loop fuel r s = Some (Raise e, s') ->
    is_defect e = true /\ exists w w', transition w = (Raise e, w').
Proof.
  intros Hrefresh. induction fuel as [|fuel IH]; intros r s s' e.
  - cbn [run_loop]. destruct (r >? 0); discriminate.
  - rewrite run_loop_S. destruct (r >? 0); [|discriminate].
    unfold bind at 1. rewrite attempt_eq.
    destruct (transition (world s)) as [[[|]|e0] w1] eqn:Et; cbn [fst snd].
    + discriminate.
    + apply IH.
    + destruct e0 as [msg| | | | |name];
        try (intros H; injection H as <- <-; split;
             [reflexivity | now exists (world s), w1]).
      * destruct (Hrefresh true (time_passes 3 w1)) as (w2 & Hu).
        unfold bind at 1. cbn. unfold bind at 1.
        rewrite (sleep_3_eq _ w2) by exact Hu. apply IH.
      * discriminate.
Qed.

(** X13. Whatever the task body does, an exception [run] raises is one the
    body raised and is neither [RecognizeError] nor [StrategyError],
    provided the screenshot refresh of the pause does not raise. *)
Theorem run_raises_only_defects :
  refresh_succeeds ->
  forall (fuel : nat) (s s' : State W) (e : exn),
    run fuel s = Some (Raise e, s') ->
    is_defect e = true /\ exists w w', transition w = (Raise e, w').
Proof.
  intros Hrefresh fuel s s' e. unfold run, bind.
  destruct (run_loop fuel MAX_RETRYTIME s) as [[[x|e0] s1]|] eqn:E;
    try discriminate.
  intros H. injection H as <- <-.
  exact (run_loop_escapes fuel Hrefresh _ _ _ _ E).
Qed.

(** X14. An exception of the body other than [RecognizeError] and
    [StrategyError] leaves [run] at once: nothing is logged, slept or
    retried. *)
Theorem run_defect_propagates (fuel : nat) (s : State W) (e : exn) (w1 : W) :
  0 < MAX_RETRYTIME ->
  is_defect e = true ->
  transition (world s) = (Raise e, w1) ->
  run (S fuel) s = Some (Raise e, mkState w1 (trace s ++ [EvTransition])).
Proof.
  intros Hb He Ht. unfold run. unfold bind at 1. rewrite run_loop_S.
  destruct (MAX_RETRYTIME >? 0) eqn:E; [|lia].
  unfold bind at 1. rewrite attempt_eq, Ht. cbn [fst snd].
  now destruct e.
Qed.


Lemma logged_out_bands (sc : Z) :
  logged_out sc = true <->
  100 <= sc <= 199 \/ 9900 <= sc <= 9999 \/ sc = -1.
Proof.
  unfold logged_out. rewrite !orb_true_iff, !Z.eqb_eq.
  split; intros H; Z.to_euclidean_division_equations; lia.
Qed.

Lemma is_login_idle (s : State W) (sc : Z) :
  recog_get_scene (world s) = (Ok sc, world s) ->
  is_login s = Some (Ok (negb (logged_out sc)), s).
Proof.
  intros H. pose proof (scene_idle s sc H) as Hs.
  unfold is_login, logged_out.
  rewrite (bind_ok _ _ s s sc Hs). destruct (sc / 100 =? 1); [reflexivity|].
  rewrite (bind_ok _ _ s s sc Hs). destruct (sc / 100 =? 99); [reflexivity|].
  now rewrite (bind_ok _ _ s s sc Hs).
Qed.

(** X12. With the scene steady at [sc], [is_login] answers [False] exactly
    for the codes 100..199, 9900..9999 and -1, and changes nothing. *)
Theorem is_login_rejects_bands (s : State W) (sc : Z) :
  recog_get_scene (world s) = (Ok sc, world s) ->
  exists logged,
    is_login s = Some (Ok logged, s) /\
    (logged = false <->
     100 <= sc <= 199 \/ 9900 <= sc <= 9999 \/ sc = -1).
Proof.
  intros H. exists (negb (logged_out sc)). split; [now apply is_login_idle|].
  rewrite negb_false_iff. apply logged_out_bands.
Qed.

(** X15. With [MAX_RETRYTIME = 0] no loop is entered: [run] returns
    without calling the body, [get_navigation] returns [None] whatever the
    screen shows, and [back_to_index] and [login] only check the scene,
    raising [StrategyError] unless the goal is already reached. *)
Theorem zero_budget_never_acts :
  MAX_RETRYTIME = 0 ->
  (forall fuel (s : State W), run fuel s = Some (Ok tt, s)) /\
  (forall fuel (s : State W), get_navigation fuel s = Some (Ok None, s)) /\
  (forall fuel (s : State W) sc w1,
      recog_get_scene (world s) = (Ok sc, w1) ->
      back_to_index fuel s =
      Some (if sc =? INDEX then Ok tt else Raise StrategyError,
            mkState w1 (trace s ++ [EvLog INFO]))) /\
  (forall fuel (s : State W) sc,
      recog_get_scene (world s) = (Ok sc, world s) ->
      login fuel s =
      Some (if logged_out sc then Raise StrategyError else Ok tt, s)).
Proof.
  intros Hz. repeat split.
  - intros fuel s. unfold run, bind. rewrite run_loop_exhausted by lia.
    reflexivity.
  - intros fuel s. unfold get_navigation. rewrite Hz. now destruct fuel.
  - intros fuel s sc w1 Hs. unfold back_to_index. unfold bind at 1. cbn.
    assert (E : forall s0, back_to_index_loop fuel MAX_RETRYTIME s0 =
                           Some (Ok 0, s0)).
    { intros s0. rewrite Hz. now destruct fuel. }
    unfold bind at 1. rewrite E.
    rewrite (bind_ok _ _ _ _ sc
               (scene_eq (mkState (world s) (trace s ++ [EvLog INFO])) sc w1 Hs)).
    cbn [trace]. now destruct (sc =? INDEX).
  - intros fuel s sc Hs. unfold login.
    assert (E : login_loop fuel MAX_RETRYTIME s = Some (Ok 0, s)).
    { rewrite Hz. now destruct fuel. }
    unfold bind at 1. rewrite E.
    rewrite (bind_ok _ _ s s _ (is_login_idle s sc Hs)).
    now destruct (logged_out sc).
Qed.

(** X17. When the scene is steady at a logged-in code, [login] returns at
    once and changes nothing. *)
Theorem login_when_logged_in (fuel : nat) (s : State W) (sc : Z) :
  recog_get_scene (world s) = (Ok sc, world s) ->
  logged_out sc = false ->
  login fuel s = Some (Ok tt, s).
Proof.
  intros Hs Hl. pose proof (is_login_idle s sc Hs) as Hi.
  rewrite Hl in Hi. cbn in Hi.
  unfold login.
  assert (E : login_loop fuel MAX_RETRYTIME s =
              Some (Ok MAX_RETRYTIME, s)).
  { destruct fuel; cbn [login_loop];
      (destruct (MAX_RETRYTIME =? 0);
       [reflexivity|];
       unfold bind at 1; rewrite (bind_ok _ _ s s true Hi); reflexivity). }
  unfold bind at 1. rewrite E. now rewrite (bind_ok _ _ s s true Hi).
Qed.

Lemma try_eq {A : Type} (m : SolverM W A) (s s' : State W) (r : outcome A) :
  m s = Some (r, s') -> try_ m s = Some (Ok r, s').
Proof. intros H. unfold try_. now rewrite H. Qed.

(** The handler of [RecognizeError] in [login] and [back_to_index], up to
    its [continue]. *)
Lemma pause_eq {A : Type} (k : SolverM W A) (s : State W) (w2 : W) :
  recog_update true (time_passes 3 (world s)) = (Ok tt, w2) ->
  (emit (EvLog WARNING) ;; sleep 3 true ;; k) s =
  k (mkState w2 (trace s ++ retry_pause)).
Proof.
  intros Hu. unfold bind at 1. cbn. unfold bind at 1.
  rewrite (sleep_3_eq _ w2) by exact Hu. cbn [trace].
  unfold retry_pause. now rewrite <- app_assoc.
Qed.

Lemma login_step_unanticipated (s : State W) (sc : Z) :
  recog_get_scene (world s) = (Ok sc, world s) ->
  unhandled_by_login sc = true ->
  login_step s = Some (Raise (RecognizeError "Unanticipated scene: login"), s).
Proof.
  intros Hs Hu. pose proof (scene_idle s sc Hs) as Hsc.
  unfold unhandled_by_login in Hu.
  repeat (apply andb_prop in Hu; destruct Hu as [Hu ?]).
  repeat match goal with
         | H : negb _ = true |- _ => apply negb_true_iff in H
         end.
  unfold login_step.
  repeat (rewrite (bind_ok _ _ s s sc Hsc);
          match goal with
          | H : ?c = false |- context [if ?c then _ else _] => rewrite H
          end).
  reflexivity.
Qed.

Lemma login_loop_unanticipated (sc : Z) :
  scene_frozen sc -> refresh_succeeds ->
  logged_out sc = true -> unhandled_by_login sc = true ->
  forall (n fuel : nat) (s : State W),
    (n <= fuel)%nat ->
    exists w',
      login_loop fuel (Z.of_nat n) s =
      Some (Ok 0, mkState w' (trace s ++ repeat_events n retry_pause)).
Proof.
  intros Hscene Hrefresh Hout Hun.
  induction n as [|n IH]; intros fuel s Hfuel.
  - exists (world s). cbn [repeat_events]. rewrite app_nil_r.
    destruct s. now destruct fuel.
  - destruct fuel as [|fuel]; [lia|].
    cbn [login_loop].
    destruct (Z.of_nat (S n) =? 0) eqn:E; [apply Z.eqb_eq in E; lia|].
    pose proof (is_login_idle s sc (Hscene (world s))) as Hi.
    rewrite Hout in Hi. cbn [negb] in Hi.
    unfold bind at 1. unfold bind at 1. rewrite Hi. unfold ret at 1.
    cbv beta iota. cbn [negb].
    rewrite (bind_ok _ _ s s _
               (try_eq _ _ _ _
                  (login_step_unanticipated s sc (Hscene (world s)) Hun))).
    cbv beta iota.
    destruct (Hrefresh true (time_passes 3 (world s))) as (w2 & Hu).
    rewrite (pause_eq _ s w2 Hu).
    replace (Z.of_nat (S n) - 1) with (Z.of_nat n) by lia.
    destruct (IH fuel (mkState w2 (trace s ++ retry_pause)))
      as (w' & E'); [lia|].
    exists w'. rewrite E'. cbn [trace repeat_events].
    now rewrite <- !app_assoc.
Qed.

(** X18. On a steady scene that [is_login] rejects and no branch of
    [login] handles, every pass raises [RecognizeError]: after
    [MAX_RETRYTIME] warnings and pauses, with the device untouched,
    [login] raises [StrategyError]. *)
Theorem login_unanticipated_scene (sc : Z) :
  0 <= MAX_RETRYTIME ->
  scene_frozen sc -> refresh_succeeds ->
  logged_out sc = true -> unhandled_by_login sc = true ->
  forall (fuel : nat) (s : State W),
    (Z.to_nat MAX_RETRYTIME <= fuel)%nat ->
    exists w',
      login fuel s =
      Some (Raise StrategyError,
            mkState w' (trace s ++
                        repeat_events (Z.to_nat MAX_RETRYTIME) retry_pause)).
Proof.
  intros Hb Hscene Hrefresh Hout Hun fuel s Hfuel.
  destruct (login_loop_unanticipated sc Hscene Hrefresh Hout Hun
              (Z.to_nat MAX_RETRYTIME) fuel s Hfuel) as (w' & E).
  rewrite Z2Nat.id in E by lia.
  exists w'. unfold login. unfold bind at 1. rewrite E.
  pose proof (is_login_idle
                (mkState w' (trace s ++
                   repeat_events (Z.to_nat MAX_RETRYTIME) retry_pause))
                sc (Hscene w')) as Hi.
  rewrite Hout in Hi. cbn [negb] in Hi.
  now rewrite (bind_ok _ _ _ _ false Hi).
Qed.

Lemma back_to_index_step_unanticipated (fuel : nat) (s : State W) (sc : Z) :
  recog_get_scene (world s) = (Ok sc, world s) ->
  recog_nav_button (world s) = (Ok PyNone, world s) ->
  unhandled_by_back_to_index sc = true ->
  back_to_index_step (S fuel) s =
  Some (Raise (RecognizeError "Unanticipated scene: back_to_index"), s).
Proof.
  intros Hs Hn Hu. pose proof (scene_idle s sc Hs) as Hsc.
  unfold unhandled_by_back_to_index in Hu.
  repeat (apply andb_prop in Hu; destruct Hu as [Hu ?]).
  repeat match goal with
         | H : negb _ = true |- _ => apply negb_true_iff in H
         end.
  assert (Hnav : sc <> NAVIGATION_BAR) by now apply Z.eqb_neq.
  destruct (get_navigation_absent fuel s sc Hnav Hs Hn) as (v & Ev & Hv).
  unfold back_to_index_step.
  rewrite (bind_ok _ _ s s v Ev), Hv.
  repeat (rewrite (bind_ok _ _ s s sc Hsc);
          match goal with
          | H : ?c = false |- context [if ?c then _ else _] => rewrite H
          end).
  reflexivity.
Qed.

Lemma back_to_index_loop_unanticipated (sc : Z) :
  scene_frozen sc -> nav_button_absent -> refresh_succeeds ->
  sc <> INDEX -> unhandled_by_back_to_index sc = true ->
  forall (n fuel : nat) (s : State W),
    (n < fuel)%nat ->
    exists w',
      back_to_index_loop fuel (Z.of_nat n) s =
      Some (Ok 0, mkState w' (trace s ++ repeat_events n retry_pause)).
Proof.
  intros Hscene Hnav Hrefresh Hidx Hun.
  induction n as [|n IH]; intros fuel s Hfuel.
  - exists (world s). cbn [repeat_events]. rewrite app_nil_r.
    destruct s. now destruct fuel.
  - destruct fuel as [|fuel]; [lia|].
    cbn [back_to_index_loop].
    destruct fuel as [|fuel]; [lia|].
    destruct (Z.of_nat (S n) =? 0) eqn:E; [apply Z.eqb_eq in E; lia|].
    unfold bind at 1. unfold bind at 1.
    rewrite (scene_idle s sc (Hscene (world s))). unfold ret at 1.
    cbv beta iota. apply Z.eqb_neq in Hidx. rewrite Hidx. cbn [negb].
    rewrite (bind_ok _ _ s s _
               (try_eq _ _ _ _
                  (back_to_index_step_unanticipated fuel s sc
                     (Hscene (world s)) (Hnav (world s)) Hun))).
    cbv beta iota.
    destruct (Hrefresh true (time_passes 3 (world s))) as (w2 & Hu).
    rewrite (pause_eq _ s w2 Hu).
    replace (Z.of_nat (S n) - 1) with (Z.of_nat n) by lia.
    destruct (IH (S fuel) (mkState w2 (trace s ++ retry_pause)))
      as (w' & E'); [lia|].
    exists w'. rewrite E'. cbn [trace repeat_events].
    now rewrite <- !app_assoc.
Qed.

(** X19. On a steady scene other than the home screen that no branch of
    [back_to_index] handles, with no navigation toggle, every pass raises
    [RecognizeError]: after [MAX_RETRYTIME] warnings and pauses, with the
    device untouched, [back_to_index] raises [StrategyError]. *)
Theorem back_to_index_unanticipated_scene (sc : Z) :
  0 <= MAX_RETRYTIME ->
  scene_frozen sc -> nav_button_absent -> refresh_succeeds ->
  sc <> INDEX -> unhandled_by_back_to_index sc = true ->
  forall (fuel : nat) (s : State W),
    (Z.to_nat MAX_RETRYTIME < fuel)%nat ->
    exists w',
      back_to_index fuel s =
      Some (Raise StrategyError,
            mkState w' (trace s ++ [EvLog INFO] ++
                        repeat_events (Z.to_nat MAX_RETRYTIME) retry_pause)).
Proof.
  intros Hb Hscene Hnav Hrefresh Hidx Hun fuel s Hfuel.
  destruct (back_to_index_loop_unanticipated sc Hscene Hnav Hrefresh Hidx Hun
              (Z.to_nat MAX_RETRYTIME) fuel
              (mkState (world s) (trace s ++ [EvLog INFO])) Hfuel)
    as (w' & E).
  rewrite Z2Nat.id in E by lia. cbn [trace] in E.
  exists w'. unfold back_to_index. unfold bind at 1. cbn [emit].
  unfold bind at 1. rewrite E.
  rewrite (bind_ok _ _ _ _ sc (scene_idle (mkState w' _) sc (Hscene w'))).
  apply Z.eqb_neq in Hidx. rewrite Hidx. unfold raise.
  now rewrite <- app_assoc.
Qed.

(** One pass of [back_to_index] on the mail overlay, the toggle being
    absent. *)
Lemma back_to_index_step_mail (fuel : nat) (s : State W) (x0 y0 x1 y1 : Z)
    (w1 w2 : W) :
  mail_is_distinct = true ->
  recog_get_scene (world s) = (Ok MAIL, world s) ->
  recog_nav_button (world s) = (Ok PyNone, world s) ->
  recog_find "mail" false PyNone None true (world s) =
    (Ok (Scope (inject_Z x0) (inject_Z y0) (inject_Z x1) (inject_Z y1)),
     world s) ->
  device_tap ((y0 + y1) / 2, (y0 + y1) / 2) (world s) = (Ok tt, w1) ->
  recog_update true (time_passes 1 w1) = (Ok tt, w2) ->
  back_to_index_step (S fuel) s =
  Some (Ok tt,
        mkState w2 (trace s ++ [EvTap ((y0 + y1) / 2, (y0 + y1) / 2);
                                EvTimeSleep 1; EvRecogUpdate true])).
Proof.
  intros Hd Hs Hn Hf Ht Hu.
  pose proof (scene_idle s MAIL Hs) as Hsc.
  unfold mail_is_distinct in Hd.
  repeat (apply andb_prop in Hd; destruct Hd as [Hd ?]).
  repeat match goal with
         | H : negb _ = true |- _ => apply negb_true_iff in H
         end.
  assert (Hbar : MAIL <> NAVIGATION_BAR) by now apply Z.eqb_neq.
  destruct (get_navigation_absent fuel s MAIL Hbar Hs Hn) as (v & Ev & Hv).
  unfold back_to_index_step.
  rewrite (bind_ok _ _ s s v Ev), Hv.
  repeat (rewrite (bind_ok _ _ s s MAIL Hsc);
          match goal with
          | H : ?c = false |- context [if ?c then _ else _] => rewrite H
          end).
  rewrite (bind_ok _ _ s s MAIL Hsc), Z.eqb_refl.
  assert (Ef : find "mail" false PyNone None true s =
               Some (Ok (Scope (inject_Z x0) (inject_Z y0)
                               (inject_Z x1) (inject_Z y1)), s)).
  { unfold find, ask. rewrite Hf. now destruct s. }
  rewrite (bind_ok _ _ s s _ Ef).
  unfold bind at 1, eval. rewrite mail_mid_y_scope.
  apply (tap_settles _ _ _ ((y0 + y1) / 2, (y0 + y1) / 2) s w1 w2);
    [apply get_pos_coordinate_int | exact Ht | exact Hu].
Qed.

(** A pass of the loop of [back_to_index] on the mail overlay: whatever
    the budget was, the next pass starts with [MAX_RETRYTIME]. *)
Lemma back_to_index_loop_mail (fuel : nat) (r : Z) (s : State W)
    (x0 y0 x1 y1 : Z) (w1 w2 : W) :
  r <> 0 -> MAIL <> INDEX ->
  mail_is_distinct = true ->
  recog_get_scene (world s) = (Ok MAIL, world s) ->
  recog_nav_button (world s) = (Ok PyNone, world s) ->
  recog_find "mail" false PyNone None true (world s) =
    (Ok (Scope (inject_Z x0) (inject_Z y0) (inject_Z x1) (inject_Z y1)),
     world s) ->
  device_tap ((y0 + y1) / 2, (y0 + y1) / 2) (world s) = (Ok tt, w1) ->
  recog_update true (time_passes 1 w1) = (Ok tt, w2) ->
  back_to_index_loop (S (S fuel)) r s =
  back_to_index_loop (S fuel) MAX_RETRYTIME
    (mkState w2 (trace s ++ [EvTap ((y0 + y1) / 2, (y0 + y1) / 2);
                             EvTimeSleep 1; EvRecogUpdate true])).
Proof.
  intros Hr Hidx Hd Hs Hn Hf Ht Hu.
  apply Z.eqb_neq in Hr, Hidx.
  remember (S fuel) as fuel1 eqn:Ef.
  cbn [back_to_index_loop]. rewrite Hr.
  unfold bind at 1. unfold bind at 1.
  rewrite (scene_idle s MAIL Hs). unfold ret at 1.
  cbv beta iota. rewrite Hidx. cbn [negb].
  rewrite Ef at 1.
  rewrite (bind_ok _ _ _ _ _
             (try_eq _ _ _ _
                (back_to_index_step_mail fuel s x0 y0 x1 y1 w1 w2
                   Hd Hs Hn Hf Ht Hu))).
  reflexivity.
Qed.

(** X20. A pass of [back_to_index] on the mail overlay taps once and,
    whatever [retry_times] was, hands [MAX_RETRYTIME] to the next pass.
    So while the mail overlay stays on screen the procedure does not
    return: no amount of fuel yields a result, neither success nor
    [StrategyError]. *)
Theorem back_to_index_stuck_on_mail :
  MAX_RETRYTIME <> 0 -> MAIL <> INDEX -> mail_is_distinct = true ->
  (forall (fuel : nat) (r : Z) (s : State W) (x0 y0 x1 y1 : Z) (w1 w2 : W),
      r <> 0 ->
      recog_get_scene (world s) = (Ok MAIL, world s) ->
      recog_nav_button (world s) = (Ok PyNone, world s) ->
      recog_find "mail" false PyNone None true (world s) =
        (Ok (Scope (inject_Z x0) (inject_Z y0) (inject_Z x1) (inject_Z y1)),
         world s) ->
      device_tap ((y0 + y1) / 2, (y0 + y1) / 2) (world s) = (Ok tt, w1) ->
      recog_update true (time_passes 1 w1) = (Ok tt, w2) ->
      back_to_index_loop (S (S fuel)) r s =
      back_to_index_loop (S fuel) MAX_RETRYTIME
        (mkState w2 (trace s ++ [EvTap ((y0 + y1) / 2, (y0 + y1) / 2);
                                 EvTimeSleep 1; EvRecogUpdate true]))) /\
  (forall x0 y0 x1 y1 : Z,
      scene_frozen MAIL -> nav_button_absent -> mail_found_at x0 y0 x1 y1 ->
      taps_succeed -> refresh_succeeds ->
      forall (fuel : nat) (s : State W), back_to_index fuel s = None).
Proof.
  intros Hb Hidx Hd. split.
  - intros fuel r s x0 y0 x1 y1 w1 w2 Hr Hs Hn Hf Ht Hu.
    exact (back_to_index_loop_mail fuel r s x0 y0 x1 y1 w1 w2 Hr Hidx Hd
             Hs Hn Hf Ht Hu).
  - intros x0 y0 x1 y1 Hscene Hnav Hmail Htap Hrefresh.
    assert (Hloop : forall fuel r s,
               r <> 0 -> back_to_index_loop fuel r s = None).
    { induction fuel as [|fuel IH]; intros r s Hr.
      - apply Z.eqb_neq in Hr, Hidx.
        cbn [back_to_index_loop]. rewrite Hr.
        unfold bind at 1. unfold bind at 1.
        rewrite (scene_idle s MAIL (Hscene (world s))). unfold ret at 1.
        cbv beta iota. now rewrite Hidx.
      - destruct fuel as [|fuel].
        + apply Z.eqb_neq in Hr, Hidx, Hb.
          cbn [back_to_index_loop]. rewrite Hr.
          unfold bind at 1. unfold bind at 1.
          rewrite (scene_idle s MAIL (Hscene (world s))). unfold ret at 1.
          cbv beta iota. rewrite Hidx. cbn [negb].
          unfold bind at 1, try_, back_to_index_step. unfold bind at 1.
          unfold get_navigation. cbn [get_navigation_loop]. now rewrite Hb.
        + destruct (Htap ((y0 + y1) / 2, (y0 + y1) / 2) (world s))
            as (w1 & Ht).
          destruct (Hrefresh true (time_passes 1 w1)) as (w2 & Hu).
          rewrite (back_to_index_loop_mail fuel r s x0 y0 x1 y1 w1 w2 Hr
                     Hidx Hd (Hscene (world s)) (Hnav (world s))
                     (Hmail (world s)) Ht Hu).
          now apply IH. }
    intros fuel s. unfold back_to_index. unfold bind at 1. cbn [emit].
    unfold bind at 1. now rewrite Hloop.
Qed.

(** X21. [back_to_index] returns normally only straight after reading the
    home scene, and [login] only straight after [is_login] answered
    [True]: in every other case they raise or go on. *)
Theorem procedures_return_only_on_goal :
  (forall (fuel : nat) (s s' : State W),
      back_to_index fuel s = Some (Ok tt, s') ->
      exists s0, scene s0 = Some (Ok INDEX, s')) /\
  (forall (fuel : nat) (s s' : State W),
      login fuel s = Some (Ok tt, s') ->
      exists s0, is_login s0 = Some (Ok true, s')).
Proof.
  split; intros fuel s s'.
  - unfold back_to_index. unfold bind at 1. cbn [emit]. unfold bind at 1.
    destruct (back_to_index_loop fuel MAX_RETRYTIME _) as [[[r|e] s1]|];
      try discriminate.
    unfold bind at 1.
    destruct (scene s1) as [[[sc|e] s2]|] eqn:Es; try discriminate.
    destruct (sc =? INDEX) eqn:E; [|discriminate].
    apply Z.eqb_eq in E. subst sc.
    intros H. injection H as <-. now exists s1.
  - unfold login. unfold bind at 1.
    destruct (login_loop fuel MAX_RETRYTIME s) as [[[r|e] s1]|];
      try discriminate.
    unfold bind at 1.
    destruct (is_login s1) as [[[[|]|e] s2]|] eqn:Es; try discriminate.
    intros H. injection H as <-. now exists s1.
Qed.

(** X22. The scene query of a loop test stands outside the [try]: when it
    raises, [RecognizeError] included, [back_to_index], [login] and
    [get_navigation] pass the exception on without a retry. *)
Theorem scene_error_in_loop_test_escapes (fuel : nat) (s : State W) (e : exn)
    (w1 : W) :
  MAX_RETRYTIME <> 0 ->
  recog_get_scene (world s) = (Raise e, w1) ->
  back_to_index fuel s =
    Some (Raise e, mkState w1 (trace s ++ [EvLog INFO])) /\
  login fuel s = Some (Raise e, mkState w1 (trace s)) /\
  get_navigation (S fuel) s = Some (Raise e, mkState w1 (trace s)).
Proof.
  intros Hb Hs. apply Z.eqb_neq in Hb.
  assert (Hscene : forall t, scene (mkState (world s) t) =
                             Some (Raise e, mkState w1 t)).
  { intros t. unfold scene, ask. cbn [world trace]. now rewrite Hs. }
  repeat split.
  - unfold back_to_index. unfold bind at 1. cbn [emit]. unfold bind at 1.
    destruct fuel; cbn [back_to_index_loop]; rewrite Hb;
      unfold bind at 1; unfold bind at 1; now rewrite Hscene.
  - unfold login. unfold bind at 1.
    destruct fuel; cbn [login_loop]; rewrite Hb;
      unfold bind at 1; unfold bind at 1; unfold is_login;
      unfold bind at 1; destruct s as [w t]; cbn [world] in *;
      now rewrite Hscene.
  - unfold get_navigation. cbn [get_navigation_loop]. rewrite Hb.
    unfold bind at 1. destruct s as [w t]; cbn [world] in *.
    now rewrite Hscene.
Qed.

Lemma get_navigation_loop_true (fuel : nat) :
  forall (r : Z) (s s' : State W),
    get_navigation_loop fuel r s = Some (Ok (Some true), s') ->
    exists s0, scene s0 = Some (Ok NAVIGATION_BAR, s').
Proof.
  induction fuel as [|fuel IH]; intros r s s'; cbn [get_navigation_loop];
    (destruct (r =? 0); [discriminate|]); [discriminate|].
  unfold bind at 1.
  destruct (scene s) as [[[sc|e] s1]|] eqn:Es; try discriminate.
  destruct (sc =? NAVIGATION_BAR) eqn:E.
  - apply Z.eqb_eq in E. subst sc. intros H. injection H as <-. now exists s.
  - unfold bind at 1.
    destruct (tap_element _ _ _ _ _ _ _ _ _ s1) as [[[[|]|e] s2]|];
      try discriminate.
    apply IH.
Qed.

(** X23. [get_navigation] answers [True] on the navigation bar without
    touching the device, and it never answers [True] otherwise: the last
    thing it did was read the navigation-bar scene. *)
Theorem get_navigation_true_means_bar :
  (forall (fuel : nat) (s : State W) (w1 : W),
      MAX_RETRYTIME <> 0 ->
      recog_get_scene (world s) = (Ok NAVIGATION_BAR, w1) ->
      get_navigation (S fuel) s = Some (Ok (Some true), mkState w1 (trace s))) /\
  (forall (fuel : nat) (s s' : State W),
      get_navigation fuel s = Some (Ok (Some true), s') ->
      exists s0, scene s0 = Some (Ok NAVIGATION_BAR, s')).
Proof.
  split.
  - intros fuel s w1 Hb Hs. unfold get_navigation. cbn [get_navigation_loop].
    apply Z.eqb_neq in Hb. rewrite Hb.
    rewrite (bind_ok _ _ _ _ _ (scene_eq s _ w1 Hs)).
    now rewrite Z.eqb_refl.
  - intros fuel s s'. apply get_navigation_loop_true.
Qed.

(** X24. From the open navigation bar home is one tap away: when the home
    entry is found and the home screen shows after the tap has settled,
    [back_to_index] taps the entry once and returns. *)
Theorem back_to_index_from_navigation_bar (fuel : nat) (s : State W)
    (el : pyval) (pos : Z * Z) (w1 w2 : W) :
  MAX_RETRYTIME <> 0 ->
  NAVIGATION_BAR <> INDEX ->
  recog_get_scene (world s) = (Ok NAVIGATION_BAR, world s) ->
  recog_find "nav_index" false PyNone None true (world s) = (Ok el, world s) ->
  get_pos el (1#2) (1#2) = Ok pos ->
  device_tap pos (world s) = (Ok tt, w1) ->
  recog_update true (time_passes 1 w1) = (Ok tt, w2) ->
  recog_get_scene w2 = (Ok INDEX, w2) ->
  back_to_index (S (S fuel)) s =
  Some (Ok tt,
        mkState w2 (trace s ++ [EvLog INFO; EvTap pos; EvTimeSleep 1;
                                EvRecogUpdate true])).
Proof.
  intros Hb Hne Hs Hf Hp Ht Hu Hhome.
  apply Z.eqb_neq in Hb, Hne.
  set (s1 := mkState (world s) (trace s ++ [EvLog INFO])).
  set (s2 := mkState w2 (trace s1 ++ [EvTap pos; EvTimeSleep 1;
                                      EvRecogUpdate true])).
  assert (Hbar : scene s1 = Some (Ok NAVIGATION_BAR, s1))
    by (apply scene_idle; exact Hs).
  assert (Hnav : get_navigation (S fuel) s1 = Some (Ok (Some true), s1)).
  { unfold get_navigation. cbn [get_navigation_loop]. rewrite Hb.
    rewrite (bind_ok _ _ _ _ _ Hbar). now rewrite Z.eqb_refl. }
  assert (Htap : tap_element "nav_index" (1#2) (1#2) 1 true false PyNone
                             true false s1 = Some (Ok true, s2)).
  { unfold tap_element. cbn [String.eqb Ascii.eqb Bool.eqb].
    assert (Ef : find "nav_index" false PyNone None true s1 =
                 Some (Ok el, s1))
      by (unfold find, ask; cbn [world s1]; now rewrite Hf).
    rewrite (bind_ok _ _ _ _ _ Ef).
    rewrite (bind_ok _ _ _ _ tt (tap_settles _ _ _ pos s1 w1 w2 Hp Ht Hu)).
    reflexivity. }
  assert (Hstep : back_to_index_step (S fuel) s1 = Some (Ok tt, s2)).
  { unfold back_to_index_step. rewrite (bind_ok _ _ _ _ _ Hnav).
    cbn [truthy]. now rewrite (bind_ok _ _ _ _ _ Htap). }
  assert (Hidx : scene s2 = Some (Ok INDEX, s2))
    by (apply scene_idle; exact Hhome).
  assert (Hloop : back_to_index_loop (S (S fuel)) MAX_RETRYTIME s1 =
                  Some (Ok MAX_RETRYTIME, s2)).
  { cbn [back_to_index_loop]. rewrite Hb.
    unfold bind at 1. unfold bind at 1. rewrite Hbar. unfold ret at 1.
    cbv beta iota. rewrite Hne. cbn [negb].
    rewrite (bind_ok _ _ _ _ _ (try_eq _ _ _ _ Hstep)). cbv beta iota.
    unfold bind at 1. unfold bind at 1. rewrite Hidx. unfold ret at 1.
    cbv beta iota. now rewrite Z.eqb_refl. }
  unfold back_to_index. unfold bind at 1. cbn [emit]. fold s1.
  rewrite (bind_ok _ _ _ _ _ Hloop), (bind_ok _ _ _ _ _ Hidx), Z.eqb_refl.
  unfold ret, s2, s1. cbn [trace]. now rewrite <- app_assoc.
Qed.

End LoopProperties.

(** ** The further properties on the scripted worlds *)

Lemma scene_frozen_scripted body (sc : Z) nav found :
  scene_frozen (ext := Example.scripted body (fun _ => sc) nav found) sc.
Proof. intros w. reflexivity. Defined.

Lemma nav_button_absent_scripted body scene_after found :
  nav_button_absent (ext := Example.scripted body scene_after PyNone found).
Proof. intros w. reflexivity. Defined.


Lemma mail_found_at_stuck :
  mail_found_at (ext := Scenario.mail_stuck) 100 40 300 101.
Proof. intros w. reflexivity. Defined.

Lemma swipe_move_path_example :
  nth 2 ((10, 10) :: moves_from (10, 10) [(5, 0); (0, 7); (-5, 0)]) (0, 0) =
  (15, 17).
Proof.
  destruct (swipe_move_path (ext := Example.at_home) (10, 10)
              [(5, 0); (0, 7); (-5, 0)] 100 1 true) as (_ & _ & H & _).
  apply (H 2%nat (0, 0)). cbn. lia.
Defined.

Lemma noinertia_path_shape_example :
  exists p1 p2 p3,
    [(500, 600); (600, 600); (600, 400); (500, 400)] = [(500, 600); p1; p2; p3] /\
    axis_parallel (500, 600) p1 /\ axis_parallel p1 p2 /\ axis_parallel p2 p3 /\
    0 <= 200 /\
    (0 = 0 \/ -200 = 0 ->
     p3 = point_add (500, 600) (0, -200) /\ 200 = Z.abs 0 + Z.abs (-200)).
Proof. exact (noinertia_path_shape (500, 600) (0, -200)). Defined.

Lemma is_login_rejects_bands_example :
  exists logged,
    is_login (ext := Scenario.at_login) Example.start =
    Some (Ok logged, Example.start) /\
    (logged = false <-> 100 <= 103 <= 199 \/ 9900 <= 103 <= 9999 \/ 103 = -1).
Proof.
  exact (is_login_rejects_bands (ext := Scenario.at_login) Example.start 103
           eq_refl).
Defined.

Lemma run_raises_only_defects_example :
  is_defect TypeError = true /\
  exists w w', transition (Collaborators := Scenario.broken) w =
               (Raise TypeError, w').
Proof.
  apply (run_raises_only_defects (cfg := Example.budget 3)
           (ext := Scenario.broken)
           (refresh_succeeds_scripted _ _ _ _) 1 Example.start
           (mkState (Example.mkSim 1 0) [EvTransition]) TypeError).
  reflexivity.
Defined.

Lemma run_defect_propagates_example :
  run (cfg := Example.budget 3) (ext := Scenario.broken) 1 Example.start =
  Some (Raise TypeError, mkState (Example.mkSim 1 0) [EvTransition]).
Proof.
  apply (run_defect_propagates (cfg := Example.budget 3)
           (ext := Scenario.broken) 0 Example.start TypeError
           (Example.mkSim 1 0)); [cbn; lia | reflexivity | reflexivity].
Defined.

Lemma zero_budget_never_acts_example :
  run (cfg := Example.budget 0) (ext := Example.flaky) 0 Example.start =
    Some (Ok tt, Example.start) /\
  get_navigation (cfg := Example.budget 0) (scenes := Example.scene_table)
                 (ext := Scenario.bar_open) 0 Example.start =
    Some (Ok None, Example.start) /\
  back_to_index (cfg := Example.budget 0) (scenes := Example.scene_table)
                (ext := Example.mail_open) 0 Example.start =
    Some (Raise StrategyError, mkState (Example.mkSim 0 0) [EvLog INFO]) /\
  login (cfg := Example.budget 0) (scenes := Example.scene_table)
        (ext := Scenario.at_login) 0 Example.start =
    Some (Raise StrategyError, Example.start).
Proof.
  split; [|split; [|split]].
  - apply (zero_budget_never_acts (cfg := Example.budget 0)
             (scenes := Example.scene_table) (ext := Example.flaky) eq_refl).
  - apply (zero_budget_never_acts (cfg := Example.budget 0)
             (scenes := Example.scene_table) (ext := Scenario.bar_open) eq_refl).
  - apply (proj1 (proj2 (proj2 (zero_budget_never_acts
             (cfg := Example.budget 0) (scenes := Example.scene_table)
             (ext := Example.mail_open) eq_refl)))
             0%nat Example.start 12 (Example.mkSim 0 0) eq_refl).
  - apply (proj2 (proj2 (proj2 (zero_budget_never_acts
             (cfg := Example.budget 0) (scenes := Example.scene_table)
             (ext := Scenario.at_login) eq_refl)))
             0%nat Example.start 103 eq_refl).
Defined.


Lemma login_when_logged_in_example :
  login (cfg := Example.budget 3) (scenes := Example.scene_table)
        (ext := Example.at_home) 0 Example.start = Some (Ok tt, Example.start).
Proof.
  exact (login_when_logged_in (cfg := Example.budget 3)
           (scenes := Example.scene_table) (ext := Example.at_home)
           0 Example.start 1 eq_refl eq_refl).
Defined.

Lemma login_unanticipated_scene_example :
  exists w',
    login (cfg := Example.budget 3) (scenes := Example.scene_table)
          (ext := Scenario.lost) 3 Example.start =
    Some (Raise StrategyError, mkState w' (repeat_events 3 retry_pause)).
Proof.
  apply (login_unanticipated_scene (cfg := Example.budget 3)
           (scenes := Example.scene_table) (ext := Scenario.lost) (-1)).
  - cbn. lia.
  - apply scene_frozen_scripted.
  - apply refresh_succeeds_scripted.
  - reflexivity.
  - reflexivity.
  - cbn. lia.
Defined.

Lemma back_to_index_unanticipated_scene_example :
  exists w',
    back_to_index (cfg := Example.budget 3) (scenes := Example.scene_table)
                  (ext := Scenario.lost) 4 Example.start =
    Some (Raise StrategyError,
          mkState w' ([EvLog INFO] ++ repeat_events 3 retry_pause)).
Proof.
  apply (back_to_index_unanticipated_scene (cfg := Example.budget 3)
           (scenes := Example.scene_table) (ext := Scenario.lost) (-1)).
  - cbn. lia.
  - apply scene_frozen_scripted.
  - apply nav_button_absent_scripted.
  - apply refresh_succeeds_scripted.
  - discriminate.
  - reflexivity.
  - cbn. lia.
Defined.

Lemma back_to_index_stuck_on_mail_example :
  back_to_index_loop (cfg := Example.budget 3) (scenes := Example.scene_table)
                     (ext := Example.mail_open) 2 1 Example.start =
    Some (Ok 3, mkState (Example.mkSim 0 1)
                  [EvTap (70, 70); EvTimeSleep 1; EvRecogUpdate true]) /\
  back_to_index (cfg := Example.budget 3) (scenes := Example.scene_table)
                (ext := Scenario.mail_stuck) 9 Example.start = None.
Proof.
  split.
  - exact (eq_trans
             (proj1 (back_to_index_stuck_on_mail (cfg := Example.budget 3)
                       (scenes := Example.scene_table)
                       (ext := Example.mail_open)
                       ltac:(discriminate) ltac:(discriminate) eq_refl)
                    0%nat 1 Example.start 100 40 300 101
                    (Example.mkSim 0 1) (Example.mkSim 0 1)
                    ltac:(discriminate) eq_refl eq_refl eq_refl eq_refl
                    eq_refl)
             eq_refl).
  - apply (proj2 (back_to_index_stuck_on_mail (cfg := Example.budget 3)
                    (scenes := Example.scene_table)
                    (ext := Scenario.mail_stuck)
                    ltac:(discriminate) ltac:(discriminate) eq_refl)
                 100 40 300 101).
    + apply scene_frozen_scripted.
    + apply nav_button_absent_scripted.
    + exact mail_found_at_stuck.
    + apply taps_succeed_scripted.
    + apply refresh_succeeds_scripted.
Defined.

Lemma procedures_return_only_on_goal_example :
  (exists s0, scene (ext := Example.at_home) s0 =
              Some (Ok (INDEX (SceneTable := Example.scene_table)),
                    mkState (Example.mkSim 0 0) [EvLog INFO])) /\
  (exists s0, is_login (ext := Example.at_home) s0 =
              Some (Ok true, Example.start)).
Proof.
  split.
  - apply (proj1 (procedures_return_only_on_goal (cfg := Example.budget 3)
             (scenes := Example.scene_table) (ext := Example.at_home))
             0%nat Example.start). reflexivity.
  - apply (proj2 (procedures_return_only_on_goal (cfg := Example.budget 3)
             (scenes := Example.scene_table) (ext := Example.at_home))
             0%nat Example.start). reflexivity.
Defined.

Lemma scene_error_in_loop_test_escapes_example :
  let e := RecognizeError "no scene" in
  back_to_index (cfg := Example.budget 3) (scenes := Example.scene_table)
                (ext := Scenario.blacked_out Example.at_home) 5 Example.start =
    Some (Raise e, mkState (Example.mkSim 0 0) [EvLog INFO]) /\
  login (cfg := Example.budget 3) (scenes := Example.scene_table)
        (ext := Scenario.blacked_out Example.at_home) 5 Example.start =
    Some (Raise e, Example.start) /\
  get_navigation (cfg := Example.budget 3) (scenes := Example.scene_table)
                 (ext := Scenario.blacked_out Example.at_home) 6 Example.start =
    Some (Raise e, Example.start).
Proof.
  apply (scene_error_in_loop_test_escapes (cfg := Example.budget 3)
           (scenes := Example.scene_table)
           (ext := Scenario.blacked_out Example.at_home) 5 Example.start
           (RecognizeError "no scene") (Example.mkSim 0 0));
    [discriminate | reflexivity].
Defined.

Lemma get_navigation_true_means_bar_example :
  get_navigation (cfg := Example.budget 3) (scenes := Example.scene_table)
                 (ext := Scenario.bar_open) 1 Example.start =
    Some (Ok (Some true), Example.start) /\
  exists s0, scene (ext := Scenario.bar_open) s0 =
             Some (Ok (NAVIGATION_BAR (SceneTable := Example.scene_table)),
                   Example.start).
Proof.
  pose proof (proj1 (get_navigation_true_means_bar (cfg := Example.budget 3)
                (scenes := Example.scene_table) (ext := Scenario.bar_open))
                0%nat Example.start (Example.mkSim 0 0)) as H.
  assert (E : get_navigation (cfg := Example.budget 3)
                (scenes := Example.scene_table) (ext := Scenario.bar_open)
                1 Example.start = Some (Ok (Some true), Example.start)).
  { apply H; [discriminate | reflexivity]. }
  split; [exact E|].
  exact (proj2 (get_navigation_true_means_bar (cfg := Example.budget 3)
                  (scenes := Example.scene_table) (ext := Scenario.bar_open))
               1%nat Example.start Example.start E).
Defined.

Lemma back_to_index_from_navigation_bar_example :
  back_to_index (cfg := Example.budget 3) (scenes := Example.scene_table)
                (ext := Scenario.bar_open) 2 Example.start =
  Some (Ok tt,
        mkState (Example.mkSim 0 1)
          [EvLog INFO; EvTap (70, 40); EvTimeSleep 1; EvRecogUpdate true]).
Proof.
  apply (back_to_index_from_navigation_bar (cfg := Example.budget 3)
           (scenes := Example.scene_table) (ext := Scenario.bar_open)
           0 Example.start (Scope 40 20 100 60) (70, 40)
           (Example.mkSim 0 1) (Example.mkSim 0 1));
    try reflexivity; discriminate.
Defined.
